(** * Register access layer of the FPGA (util_spectral_scan/src/loragw_fpga_reg.c)

    A shallow embedding of the name-addressed register layer: the descriptor
    table, the connection handle, the scalar read and write routines with
    their bit arithmetic, the burst pass-through and the two SX1272
    pass-through calls.  The SPI driver (loragw_fpga_spi.h) is an external
    collaborator: it is a record of functions over an abstract world, and
    every call the layer makes to it is recorded in a call log. *)

From Stdlib Require Import ZArith Lia Bool.
From stdpp Require Import base option list gmap.
From coqutil Require Import Z.bitblast.

Local Open Scope Z_scope.

(** ** C integer conversions *)

Module C.

(** Conversion to [uint8_t], [uint32_t]: reduction modulo the width. *)
Definition uint8_t (x : Z) : Z := x mod 2 ^ 8.
Definition uint32_t (x : Z) : Z := x mod 2 ^ 32.

(** Conversion to [int8_t], [int32_t]: the two's complement value of the
    low bits. *)
Definition int8_t (x : Z) : Z := (x + 2 ^ 7) mod 2 ^ 8 - 2 ^ 7.
Definition int32_t (x : Z) : Z := (x + 2 ^ 31) mod 2 ^ 32 - 2 ^ 31.

Definition is_uint8 (x : Z) : Prop := 0 <= x < 2 ^ 8.
Definition is_int32 (x : Z) : Prop := - 2 ^ 31 <= x < 2 ^ 31.

End C.

Import C.

(** ** Register descriptors *)

(** [struct lgw_reg_s]. *)
Record lgw_reg_s := mk_reg {
  page : Z;      (* int8_t, -1 for all pages *)
  addr : Z;      (* uint8_t, base address *)
  offs : Z;      (* uint8_t, position of the register LSB *)
  sign : bool;   (* signed register (2 complement) *)
  leng : Z;      (* uint8_t, number of bits *)
  rdon : bool;   (* read-only register *)
  dflt : Z       (* int32_t, default value *)
}.

#[global] Instance lgw_reg_s_inhabited : Inhabited lgw_reg_s :=
  populate (mk_reg 0 0 0 false 0 false 0).

(** The fields hold values of their C types. *)
Definition reg_typed (r : lgw_reg_s) : Prop :=
  - 2 ^ 7 <= page r < 2 ^ 7 /\ is_uint8 (addr r) /\ is_uint8 (offs r) /\
  is_uint8 (leng r) /\ is_int32 (dflt r).

Definition PAGE_ADDR : Z := 0.
Definition PAGE_MASK : Z := 3.

Definition FPGA_SPI_MUX_SX1301 : Z := 0.
Definition FPGA_SPI_MUX_FPGA_REG : Z := 1.
Definition FPGA_SPI_MUX_EEPROM : Z := 2.
Definition FPGA_SPI_MUX_SX1272 : Z := 3.

(** [fpga_regs], the table of the source. *)
Definition fpga_regs : list lgw_reg_s :=
  [ mk_reg (-1) 0 0 false 1 false 0        (* SOFT_RESET *)
  ; mk_reg (-1) 1 0 false 8 true 18        (* VERSION *)
  ; mk_reg (-1) 2 0 false 8 true 0         (* FPGA_STATUS *)
  ; mk_reg (-1) 3 0 false 8 false 0        (* FPGA_CTRL *)
  ; mk_reg (-1) 4 0 false 8 false 0        (* HISTO_RAM_ADDR *)
  ; mk_reg (-1) 5 0 false 8 true 0         (* HISTO_RAM_DATA *)
  ; mk_reg (-1) 6 0 false 16 false 32000   (* HISTO_TEMPO *)
  ; mk_reg (-1) 8 0 false 16 false 1000    (* HISTO_NB_READ *)
  ; mk_reg (-1) 10 0 false 32 true 0       (* TIMESTAMP *)
  ; mk_reg (-1) 127 0 false 8 false 0      (* SPI_MUX_CTRL *)
  ].

(** Modelled from the spec: the headers loragw_fpga_reg.h and
    loragw_fpga_spi.h are not among the sources.  The spec only tells a
    success from an error; the values are those of the two-valued status of
    the layer.  [LGW_FPGA_VERSION] is the index of the entry that the table
    comments as VERSION. *)
Definition LGW_REG_SUCCESS : Z := 0.
Definition LGW_REG_ERROR : Z := -1.
Definition LGW_SPI_SUCCESS : Z := 0.
Definition LGW_SPI_ERROR : Z := -1.
Definition LGW_FPGA_VERSION : nat := 1.

(** ** Exits of the layer

    Every function of the layer returns [LGW_REG_SUCCESS] or [LGW_REG_ERROR].
    The embedding keeps the return site: one constructor per [return]
    statement, named after the error kind of the specification that the
    [DEBUG_MSG] in front of that [return] announces.  [ret_code] is the
    [int] the C caller receives. *)
Inductive reg_exit :=
| Success               (* return LGW_REG_SUCCESS *)
| OpenFailed            (* "ERROR CONNECTING FPGA" *)
| VersionReadFailed     (* "ERROR READING VERSION REGISTER" *)
| DeviceAbsent          (* "ERROR: FPGA SEEMS DECONNECTED" *)
| VersionMismatch       (* "ERROR: NOT EXPECTED FPGA VERSION" *)
| AlreadyDisconnected   (* "WARNING: concentrator was already disconnected" *)
| NullPointer           (* CHECK_NULL *)
| EmptyBuffer           (* "ERROR: BURST OF NULL LENGTH" *)
| InvalidRegisterId     (* "ERROR: REGISTER NUMBER OUT OF DEFINED RANGE" *)
| NotConnected          (* "ERROR: CONCENTRATOR UNCONNECTED" *)
| ReadOnlyViolation     (* "ERROR: TRYING TO WRITE A READ-ONLY REGISTER" *)
| UnsupportedGeometry   (* "ERROR: REGISTER SIZE AND OFFSET ARE NOT SUPPORTED" *)
| TransportError.       (* "ERROR: SPI ERROR DURING REGISTER ..." *)

Definition ret_code (e : reg_exit) : Z :=
  match e with
  | Success => LGW_REG_SUCCESS
  | _ => LGW_REG_ERROR
  end.

(** ** The SPI driver and the state of the layer *)

(** A non-null [void *]; [None] stands for [NULL]. *)
Definition handle := Z.

(** Calls made to the driver, with their arguments. *)
Inductive spi_call :=
| SpiOpen
| SpiClose (target : option handle)
| SpiW (target : option handle) (mux address data : Z)
| SpiR (target : option handle) (mux address : Z)
| SpiWb (target : option handle) (mux address : Z) (data : list Z) (size : Z)
| SpiRb (target : option handle) (mux address size : Z).

(** The driver over a world [W].  A pointer argument that the driver may
    write through is passed as the current content of the pointee and comes
    back as its content after the call, next to the returned status. *)
Record spi_driver (W : Type) := {
  lgw_fpga_spi_open : option handle -> W -> Z * option handle * W;
  lgw_fpga_spi_close : option handle -> W -> Z * W;
  lgw_fpga_spi_w : option handle -> Z -> Z -> Z -> W -> Z * W;
  lgw_fpga_spi_r : option handle -> Z -> Z -> Z -> W -> Z * Z * W;
  lgw_fpga_spi_wb : option handle -> Z -> Z -> list Z -> Z -> W -> Z * W;
  lgw_fpga_spi_rb : option handle -> Z -> Z -> list Z -> Z -> W -> Z * list Z * W
}.

Arguments lgw_fpga_spi_open {W} _ _ _.
Arguments lgw_fpga_spi_close {W} _ _ _.
Arguments lgw_fpga_spi_w {W} _ _ _ _ _ _.
Arguments lgw_fpga_spi_r {W} _ _ _ _ _ _.
Arguments lgw_fpga_spi_wb {W} _ _ _ _ _ _ _.
Arguments lgw_fpga_spi_rb {W} _ _ _ _ _ _ _.

(** The global [spi_target], the world behind the driver, and the log of the
    driver calls made so far. *)
Record lgw_state (W : Type) := mk_state {
  spi_target : option handle;
  spi_world : W;
  spi_calls : list spi_call
}.

Arguments mk_state {W} _ _ _.
Arguments spi_target {W} _.
Arguments spi_world {W} _.
Arguments spi_calls {W} _.

(** ** Pure parts of the marshaling *)

(** Lines 183-185 of [lgw_fpga_reg_w]: mask, shifted data and mix, with
    [buf[0]] the byte read. *)
Definition reg_w_mix (r : lgw_reg_s) (reg_value : Z) (buf : list Z) : list Z :=
  let buf := <[1%nat := uint8_t (Z.shiftl (Z.shiftl 1 (leng r) - 1) (offs r))]> buf in
  let buf := <[2%nat := uint8_t (Z.shiftl (uint8_t reg_value) (offs r))]> buf in
  <[3%nat := uint8_t (Z.lor (Z.land (Z.lnot (buf !!! 1%nat)) (buf !!! 0%nat))
                            (Z.land (buf !!! 1%nat) (buf !!! 2%nat)))]> buf.

(** The loop of lines 190-195: [n] iterations left, starting at index [i]. *)
Fixpoint reg_w_split (n i : nat) (reg_value : Z) (buf : list Z) : list Z :=
  match n with
  | O => buf
  | S n' =>
      reg_w_split n' (S i) (Z.shiftr reg_value 8)
        (<[i := uint8_t (Z.land 255 reg_value)]> buf)
  end.

(** Lines 241-248 of [lgw_fpga_reg_r]: the value stored through
    [reg_value], with [bufu[0]] the byte read. *)
Definition reg_r_byte (r : lgw_reg_s) (bufu : list Z) : Z :=
  let bufu := <[1%nat := uint8_t (Z.shiftl (bufu !!! 0%nat) (8 - leng r - offs r))]> bufu in
  if sign r then
    let bufs2 := int8_t (Z.shiftr (int8_t (bufu !!! 1%nat)) (8 - leng r)) in
    int32_t bufs2
  else
    let bufu := <[2%nat := uint8_t (Z.shiftr (bufu !!! 1%nat) (8 - leng r))]> bufu in
    int32_t (bufu !!! 2%nat).

(** The loop of lines 253-255: indices [i-1] down to [0]. *)
Fixpoint reg_r_assemble (i : nat) (bufu : list Z) (u : Z) : Z :=
  match i with
  | O => u
  | S i' => reg_r_assemble i' bufu (uint32_t (uint32_t (bufu !!! i') + Z.shiftl u 8))
  end.

(** Lines 252-261 of [lgw_fpga_reg_r]. *)
Definition reg_r_word (r : lgw_reg_s) (size_byte : Z) (bufu : list Z) : Z :=
  let u := reg_r_assemble (Z.to_nat size_byte) bufu 0 in
  if sign r then
    let u := uint32_t (Z.shiftl u (32 - leng r)) in
    Z.shiftr (int32_t u) (32 - leng r)
  else
    int32_t u.

(** ** The layer *)

Section Layer.

Context {W : Type}.
Variable drv : spi_driver W.
Variable regs : list lgw_reg_s.

(** [LGW_FPGA_TOTALREGS] is the size of the table. *)
Definition LGW_FPGA_TOTALREGS : Z := Z.of_nat (length regs).

Definition M (A : Type) : Type := lgw_state W -> A * lgw_state W.

Definition ret {A} (a : A) : M A := fun s => (a, s).
Definition bind {A B} (m : M A) (k : A -> M B) : M B :=
  fun s => let '(a, s') := m s in k a s'.

Notation "'run' x := m 'in' k" := (bind m (fun x => k))
  (at level 10, x name, m at level 200, k at level 200, only parsing).
Notation "'run' ' pat := m 'in' k" :=
  (bind m (fun x => match x with pat => k end))
  (at level 10, pat pattern, m at level 200, k at level 200, only parsing).

Definition get_target : M (option handle) := fun s => (spi_target s, s).

Definition set_target (t : option handle) : M unit :=
  fun s => (tt, mk_state t (spi_world s) (spi_calls s)).

(** Calls to the driver: run it on the world and log the call. *)
Definition call_open : M Z := fun s =>
  let '(st, t, w) := lgw_fpga_spi_open drv (spi_target s) (spi_world s) in
  (st, mk_state t w (spi_calls s ++ [SpiOpen])).

Definition call_close (t : option handle) : M Z := fun s =>
  let '(st, w) := lgw_fpga_spi_close drv t (spi_world s) in
  (st, mk_state (spi_target s) w (spi_calls s ++ [SpiClose t])).

Definition call_w (t : option handle) (mux a data : Z) : M Z := fun s =>
  let '(st, w) := lgw_fpga_spi_w drv t mux a data (spi_world s) in
  (st, mk_state (spi_target s) w (spi_calls s ++ [SpiW t mux a data])).

(** The byte comes back in a [uint8_t] cell. *)
Definition call_r (t : option handle) (mux a cell : Z) : M (Z * Z) := fun s =>
  let '(st, b, w) := lgw_fpga_spi_r drv t mux a cell (spi_world s) in
  ((st, uint8_t b), mk_state (spi_target s) w (spi_calls s ++ [SpiR t mux a])).

Definition call_wb (t : option handle) (mux a : Z) (data : list Z) (size : Z) : M Z :=
  fun s =>
    let '(st, w) := lgw_fpga_spi_wb drv t mux a data size (spi_world s) in
    (st, mk_state (spi_target s) w (spi_calls s ++ [SpiWb t mux a data size])).

(** The bytes come back in an array of [uint8_t]. *)
Definition call_rb (t : option handle) (mux a : Z) (data : list Z) (size : Z)
  : M (Z * list Z) :=
  fun s =>
    let '(st, d, w) := lgw_fpga_spi_rb drv t mux a data size (spi_world s) in
    ((st, uint8_t <$> d),
     mk_state (spi_target s) w (spi_calls s ++ [SpiRb t mux a size])).

(** The common tail of the register functions. *)
Definition check_spi_stat (spi_stat : Z) : reg_exit :=
  if spi_stat =? LGW_SPI_SUCCESS then Success else TransportError.

Definition lgw_fpga_connect : M reg_exit :=
  run t := get_target in
  run _ := (if t is Some _ then call_close t else ret LGW_SPI_SUCCESS) in
  run spi_stat := call_open in
  if negb (spi_stat =? LGW_SPI_SUCCESS) then ret OpenFailed else
  run t := get_target in
  run '(spi_stat, u) :=
    call_r t FPGA_SPI_MUX_FPGA_REG (addr (regs !!! LGW_FPGA_VERSION)) 0 in
  if negb (spi_stat =? LGW_SPI_SUCCESS) then ret VersionReadFailed
  else if (u =? 0) || (u =? 255) then ret DeviceAbsent
  else if negb (u =? dflt (regs !!! LGW_FPGA_VERSION)) then ret VersionMismatch
  else ret Success.

Definition lgw_fpga_disconnect : M reg_exit :=
  run t := get_target in
  if t is Some _ then
    run _ := call_close t in
    run _ := set_target None in
    ret Success
  else ret AlreadyDisconnected.

Definition lgw_fpga_reg_w (register_id reg_value : Z) : M reg_exit :=
  let spi_stat := LGW_SPI_SUCCESS in
  let buf := [0; 0; 0; 0] in
  if LGW_FPGA_TOTALREGS <=? register_id then ret InvalidRegisterId else
  run t := get_target in
  if t is None then ret NotConnected else
  let r := regs !!! Z.to_nat register_id in
  if rdon r then ret ReadOnlyViolation else
  if (leng r =? 8) && (offs r =? 0) then
    run st := call_w t FPGA_SPI_MUX_FPGA_REG (addr r) (uint8_t reg_value) in
    ret (check_spi_stat (spi_stat + st))
  else if offs r + leng r <=? 8 then
    run '(st, b) := call_r t FPGA_SPI_MUX_FPGA_REG (addr r) (buf !!! 0%nat) in
    let spi_stat := spi_stat + st in
    let buf := reg_w_mix r reg_value (<[0%nat := b]> buf) in
    run st := call_w t FPGA_SPI_MUX_FPGA_REG (addr r) (buf !!! 3%nat) in
    ret (check_spi_stat (spi_stat + st))
  else if (offs r =? 0) && (0 <? leng r) && (leng r <=? 32) then
    let size_byte := (leng r + 7) / 8 in
    let buf := reg_w_split (Z.to_nat size_byte) 0 reg_value buf in
    run st := call_wb t FPGA_SPI_MUX_FPGA_REG (addr r) buf size_byte in
    ret (check_spi_stat (spi_stat + st))
  else ret UnsupportedGeometry.

(** [reg_value] is the content of the cell the pointer designates, [None]
    for a null pointer; the result carries its content after the call. *)
Definition lgw_fpga_reg_r (register_id : Z) (reg_value : option Z)
  : M (reg_exit * option Z) :=
  let spi_stat := LGW_SPI_SUCCESS in
  let bufu := [0; 0; 0; 0] in
  if reg_value is None then ret (NullPointer, reg_value) else
  if LGW_FPGA_TOTALREGS <=? register_id then ret (InvalidRegisterId, reg_value) else
  run t := get_target in
  if t is None then ret (NotConnected, reg_value) else
  let r := regs !!! Z.to_nat register_id in
  if offs r + leng r <=? 8 then
    run '(st, b) := call_r t FPGA_SPI_MUX_FPGA_REG (addr r) (bufu !!! 0%nat) in
    let bufu := <[0%nat := b]> bufu in
    let reg_value := Some (reg_r_byte r bufu) in
    ret (check_spi_stat (spi_stat + st), reg_value)
  else if (offs r =? 0) && (0 <? leng r) && (leng r <=? 32) then
    let size_byte := (leng r + 7) / 8 in
    run '(st, bufu) := call_rb t FPGA_SPI_MUX_FPGA_REG (addr r) bufu size_byte in
    let reg_value := Some (reg_r_word r size_byte bufu) in
    ret (check_spi_stat (spi_stat + st), reg_value)
  else ret (UnsupportedGeometry, reg_value).

(** [data] is the caller's buffer, [None] for a null pointer. *)
Definition lgw_fpga_reg_wb (register_id : Z) (data : option (list Z)) (size : Z)
  : M reg_exit :=
  let spi_stat := LGW_SPI_SUCCESS in
  match data with
  | None => ret NullPointer
  | Some data =>
      if size =? 0 then ret EmptyBuffer else
      if LGW_FPGA_TOTALREGS <=? register_id then ret InvalidRegisterId else
      run t := get_target in
      if t is None then ret NotConnected else
      let r := regs !!! Z.to_nat register_id in
      if rdon r then ret ReadOnlyViolation else
      run st := call_wb t FPGA_SPI_MUX_FPGA_REG (addr r) data size in
      ret (check_spi_stat (spi_stat + st))
  end.

Definition lgw_fpga_reg_rb (register_id : Z) (data : option (list Z)) (size : Z)
  : M (reg_exit * option (list Z)) :=
  let spi_stat := LGW_SPI_SUCCESS in
  match data with
  | None => ret (NullPointer, None)
  | Some data =>
      if size =? 0 then ret (EmptyBuffer, Some data) else
      if LGW_FPGA_TOTALREGS <=? register_id then ret (InvalidRegisterId, Some data) else
      run t := get_target in
      if t is None then ret (NotConnected, Some data) else
      let r := regs !!! Z.to_nat register_id in
      run '(st, d) := call_rb t FPGA_SPI_MUX_FPGA_REG (addr r) data size in
      ret (check_spi_stat (spi_stat + st), Some d)
  end.

(** The SX1272 pass-through: the driver's status is returned as it is. *)
Definition lgw_sx1272_reg_w (address reg_value : Z) : M Z :=
  run t := get_target in
  call_w t FPGA_SPI_MUX_SX1272 address reg_value.

Definition lgw_sx1272_reg_r (address reg_value : Z) : M (Z * Z) :=
  run t := get_target in
  call_r t FPGA_SPI_MUX_SX1272 address reg_value.

End Layer.

Arguments ret {W A} _ _.
Arguments bind {W A B} _ _ _.

(** ** Two drivers

    [mem_spi] is a device that keeps the bytes last written: its world maps
    a mux selector and an address to a byte, bursts run over consecutive
    addresses, and a call through a null handle fails without effect.
    [dead_spi] is a link on which every call fails and leaves the caller's
    cells as they are. *)

Definition mem_load1 (mux a : Z) (w : gmap (Z * Z) Z) : Z :=
  default 0 (w !! (mux, a)).

Fixpoint mem_store (mux a : Z) (data : list Z) (w : gmap (Z * Z) Z)
  : gmap (Z * Z) Z :=
  match data with
  | [] => w
  | b :: data' => mem_store mux (a + 1) data' (<[(mux, a) := b]> w)
  end.

Fixpoint mem_load (mux a : Z) (n : nat) (w : gmap (Z * Z) Z) : list Z :=
  match n with
  | O => []
  | S n' => mem_load1 mux a w :: mem_load mux (a + 1) n' w
  end.

Definition mem_spi : spi_driver (gmap (Z * Z) Z) := {|
  lgw_fpga_spi_open := fun _ w => (LGW_SPI_SUCCESS, Some 1, w);
  lgw_fpga_spi_close := fun t w =>
    (if t is Some _ then LGW_SPI_SUCCESS else LGW_SPI_ERROR, w);
  lgw_fpga_spi_w := fun t mux a data w =>
    if t is Some _ then (LGW_SPI_SUCCESS, <[(mux, a) := data]> w)
    else (LGW_SPI_ERROR, w);
  lgw_fpga_spi_r := fun t mux a cell w =>
    if t is Some _ then (LGW_SPI_SUCCESS, mem_load1 mux a w, w)
    else (LGW_SPI_ERROR, cell, w);
  lgw_fpga_spi_wb := fun t mux a data size w =>
    if t is Some _
    then (LGW_SPI_SUCCESS, mem_store mux a (take (Z.to_nat size) data) w)
    else (LGW_SPI_ERROR, w);
  lgw_fpga_spi_rb := fun t mux a data size w =>
    if t is Some _
    then (LGW_SPI_SUCCESS,
          mem_load mux a (Z.to_nat size) w ++ drop (Z.to_nat size) data, w)
    else (LGW_SPI_ERROR, data, w)
|}.

Definition dead_spi : spi_driver unit := {|
  lgw_fpga_spi_open := fun t w => (LGW_SPI_ERROR, t, w);
  lgw_fpga_spi_close := fun _ w => (LGW_SPI_ERROR, w);
  lgw_fpga_spi_w := fun _ _ _ _ w => (LGW_SPI_ERROR, w);
  lgw_fpga_spi_r := fun _ _ _ cell w => (LGW_SPI_ERROR, cell, w);
  lgw_fpga_spi_wb := fun _ _ _ _ _ w => (LGW_SPI_ERROR, w);
  lgw_fpga_spi_rb := fun _ _ _ data _ w => (LGW_SPI_ERROR, data, w)
|}.

(** A device memory holding byte [b] at [address] of the FPGA register
    space, and the states of the layer before and after a connection. *)
Definition mem_with (address b : Z) : gmap (Z * Z) Z :=
  {[ (FPGA_SPI_MUX_FPGA_REG, address) := b ]}.

Definition disconnected {W} (w : W) : lgw_state W := mk_state None w [].
Definition connected {W} (h : handle) (w : W) : lgw_state W := mk_state (Some h) w [].

(** ** What the specification expects of a field

    The value of the low [n] bits of [v], read as unsigned or as two's
    complement. *)
Definition truncate_field (n : Z) (signed : bool) (v : Z) : Z :=
  let u := v mod 2 ^ n in
  if signed && (2 ^ (n - 1) <=? u) then u - 2 ^ n else u.

(** The mask of a field, and the byte the specification asks a sub-byte
    write to store. *)
Definition field_mask (r : lgw_reg_s) : Z :=
  Z.shiftl (Z.shiftl 1 (leng r) - 1) (offs r).

Definition rmw_byte (r : lgw_reg_s) (oldByte value : Z) : Z :=
  Z.lor (Z.land oldByte (Z.lnot (field_mask r)))
        (Z.land (Z.shiftl value (offs r)) (field_mask r)).

(** Test tables: a signed 4-bit field, two fields sharing a byte, an
    unsigned 12-bit and a 32-bit register. *)
Definition test_regs : list lgw_reg_s :=
  [ mk_reg (-1) 0 2 true 4 false 0
  ; mk_reg (-1) 1 0 false 3 false 0
  ; mk_reg (-1) 1 3 true 5 false 0
  ; mk_reg (-1) 2 0 false 12 false 0
  ; mk_reg (-1) 4 0 false 32 false 0
  ; mk_reg (-1) 8 0 true 12 false 0
  ; mk_reg (-1) 12 0 false 32 true 0
  ].

(** The number of bits of a field that survive a Write followed by a Read:
    its length, except for an unsigned multi-byte field, which travels as
    whole bytes. *)
Definition stored_width (r : lgw_reg_s) : Z :=
  if (offs r + leng r <=? 8) || sign r then leng r
  else 8 * ((leng r + 7) / 8).

(** The check that the single-byte Read of byte [b] yields the field of
    offset [o] and length [l]. *)
Definition byte_read_ok (o l : Z) (sg : bool) (b : Z) : bool :=
  reg_r_byte (mk_reg 0 0 o sg l false 0) [b; 0; 0; 0]
  =? truncate_field l sg (Z.shiftr b o).

(** ** Vocabulary of the further properties *)

(** The number a list of bytes stands for, least significant byte first. *)
Fixpoint le_value (bytes : list Z) : Z :=
  match bytes with
  | [] => 0
  | b :: bytes' => b + 2 ^ 8 * le_value bytes'
  end.

(** The number of device bytes a supported register occupies from its
    address on. *)
Definition reg_bytes (r : lgw_reg_s) : Z :=
  if offs r + leng r <=? 8 then 1 else (leng r + 7) / 8.

(** Two registers occupy no common device byte. *)
Definition bytes_apart (r1 r2 : lgw_reg_s) : bool :=
  (addr r1 + reg_bytes r1 <=? addr r2) || (addr r2 + reg_bytes r2 <=? addr r1).

(** No two entries of a table share a device byte. *)
Fixpoint table_apart (regs : list lgw_reg_s) : bool :=
  match regs with
  | [] => true
  | r :: regs' => forallb (bytes_apart r) regs' && table_apart regs'
  end.

(** Two fields of one byte share no bit. *)
Definition bits_apart (r1 r2 : lgw_reg_s) : Prop :=
  offs r1 + leng r1 <= offs r2 \/ offs r2 + leng r2 <= offs r1.

(** Driver calls that only read from the device. *)
Definition is_read_call (c : spi_call) : bool :=
  match c with
  | SpiR _ _ _ | SpiRb _ _ _ _ => true
  | _ => false
  end.

(** [deaf_spi] is the memory device behind a link whose read direction is
    broken: single and burst reads fail and leave the caller's cells as they
    are, everything else works as on [mem_spi]. *)
Definition deaf_spi : spi_driver (gmap (Z * Z) Z) := {|
  lgw_fpga_spi_open := lgw_fpga_spi_open mem_spi;
  lgw_fpga_spi_close := lgw_fpga_spi_close mem_spi;
  lgw_fpga_spi_w := lgw_fpga_spi_w mem_spi;
  lgw_fpga_spi_r := fun _ _ _ cell w => (LGW_SPI_ERROR, cell, w);
  lgw_fpga_spi_wb := lgw_fpga_spi_wb mem_spi;
  lgw_fpga_spi_rb := fun _ _ _ data _ w => (LGW_SPI_ERROR, data, w)
|}.

(** The number of low bits of the value that a Write sends to the device:
    the field's length inside a byte, whole bytes for a multi-byte
    register. *)
Definition write_width (r : lgw_reg_s) : Z :=
  if offs r + leng r <=? 8 then leng r else 8 * ((leng r + 7) / 8).

(** * Properties *)

(** ** Stepping through the layer *)

Lemma lookup_in_table (regs : list lgw_reg_s) (id : Z) (r : lgw_reg_s) :
  0 <= id -> regs !! Z.to_nat id = Some r ->
  (LGW_FPGA_TOTALREGS regs <=? id) = false /\ regs !!! Z.to_nat id = r.
Proof.
  intros Hid Hr. split.
  - apply lookup_lt_Some in Hr. unfold LGW_FPGA_TOTALREGS.
    apply Z.leb_gt. lia.
  - by apply list_lookup_total_correct.
Qed.

Lemma ret_code_error (e : reg_exit) : e <> Success -> ret_code e = LGW_REG_ERROR.
Proof. by destruct e. Qed.

Lemma check_spi_stat_success (st : Z) :
  check_spi_stat st = Success <-> st = LGW_SPI_SUCCESS.
Proof.
  unfold check_spi_stat. destruct (Z.eqb_spec st LGW_SPI_SUCCESS); split; done.
Qed.

Ltac layer_unfold :=
  unfold lgw_fpga_connect, lgw_fpga_disconnect, lgw_fpga_reg_w, lgw_fpga_reg_r,
    lgw_fpga_reg_wb, lgw_fpga_reg_rb, lgw_sx1272_reg_w, lgw_sx1272_reg_r,
    bind, ret, get_target, set_target, call_open, call_close, call_w, call_r,
    call_wb, call_rb.

Ltac in_table Hid Hr :=
  let Hlt := fresh "Hlt" in
  let Hget := fresh "Hget" in
  destruct (lookup_in_table _ _ _ Hid Hr) as [Hlt Hget];
  rewrite ?Hlt, ?Hget.

(** ** Connection gating *)

(** C10. The two SX1272 pass-through operations make no connection check:
    in every state, connected or not, each makes exactly one driver call
    with the current handle (null when disconnected) on the SX1272 mux, and
    what it returns is the driver's own status, never an error of the
    layer. *)
Theorem sx1272_passthrough_ungated {W} (drv : spi_driver W) (s : lgw_state W)
    (address value : Z) :
  (let '(st, w) :=
     lgw_fpga_spi_w drv (spi_target s) FPGA_SPI_MUX_SX1272 address value (spi_world s) in
   lgw_sx1272_reg_w drv address value s =
   (st, mk_state (spi_target s) w
          (spi_calls s ++ [SpiW (spi_target s) FPGA_SPI_MUX_SX1272 address value]))) /\
  (let '(st, b, w) :=
     lgw_fpga_spi_r drv (spi_target s) FPGA_SPI_MUX_SX1272 address value (spi_world s) in
   lgw_sx1272_reg_r drv address value s =
   (st, uint8_t b,
    mk_state (spi_target s) w
      (spi_calls s ++ [SpiR (spi_target s) FPGA_SPI_MUX_SX1272 address]))).
Proof.
  layer_unfold. split.
  - by destruct (lgw_fpga_spi_w _ _ _ _ _ _).
  - by destruct (lgw_fpga_spi_r _ _ _ _ _ _) as [[? ?] ?].
Qed.

(** C5, as the code has it. While disconnected, a Write, or a Read with a
    non-null result pointer, of a register identifier inside the table exits
    at the connection check; an identifier outside the table exits at the
    identifier check, and a Read with a null result pointer at the pointer
    check, both of which come first.  In every case the caller receives
    LGW_REG_ERROR, the state and the call log are unchanged, and the
    result cell keeps its content. *)
Theorem disconnected_access_rejected {W} (drv : spi_driver W)
    (regs : list lgw_reg_s) (w : W) (calls : list spi_call) (id v old : Z) :
  let s := mk_state None w calls in
  let e := if LGW_FPGA_TOTALREGS regs <=? id then InvalidRegisterId else NotConnected in
  lgw_fpga_reg_w drv regs id v s = (e, s) /\
  lgw_fpga_reg_r drv regs id (Some old) s = (e, Some old, s) /\
  lgw_fpga_reg_r drv regs id None s = (NullPointer, None, s) /\
  ret_code e = LGW_REG_ERROR /\
  (0 <= id < LGW_FPGA_TOTALREGS regs -> e = NotConnected).
Proof.
  intros s e. subst e. layer_unfold.
  destruct (Z.leb_spec (LGW_FPGA_TOTALREGS regs) id); cbn; repeat split; try done; lia.
Qed.

Lemma disconnected_access_rejected_witness :
  0 <= 3 < LGW_FPGA_TOTALREGS fpga_regs /\
  lgw_fpga_reg_w mem_spi fpga_regs 3 5 (disconnected ∅) = (NotConnected, disconnected ∅).
Proof.
  pose proof (disconnected_access_rejected mem_spi fpga_regs ∅ [] 3 5 0) as H.
  cbn zeta in H. destruct H as (Hw & _ & _ & _ & He).
  assert (Hid : 0 <= 3 < LGW_FPGA_TOTALREGS fpga_regs) by (unfold LGW_FPGA_TOTALREGS; cbn; lia).
  split; [exact Hid|].
  rewrite <- (He Hid). exact Hw.
Defined.

(** C5, as stated, fails: with an identifier outside the table the
    disconnected Write exits at the identifier check, not at the
    connection check. *)
Lemma disconnected_out_of_range_exit :
  fst (lgw_fpga_reg_w mem_spi fpga_regs 10 0 (disconnected ∅)) = InvalidRegisterId /\
  fst (lgw_fpga_reg_w mem_spi fpga_regs 10 0 (disconnected ∅)) <> NotConnected /\
  fst (lgw_fpga_reg_r mem_spi fpga_regs 10 (Some 0) (disconnected ∅))
    <> (NotConnected, Some 0).
Proof. vm_compute. repeat split; discriminate. Qed.

(** C6. While connected, a Write to a read-only descriptor, and a burst
    write of a non-empty buffer to it, exit with ReadOnlyViolation; the
    state and the call log are unchanged, so no driver call is made.  (A
    burst of a null or empty buffer is refused even earlier, with the same
    LGW_REG_ERROR and no driver call either.) *)
Theorem read_only_write_rejected {W} (drv : spi_driver W) (regs : list lgw_reg_s)
    (h : handle) (w : W) (calls : list spi_call) (id v : Z) (r : lgw_reg_s) :
  0 <= id -> regs !! Z.to_nat id = Some r -> rdon r = true ->
  let s := mk_state (Some h) w calls in
  lgw_fpga_reg_w drv regs id v s = (ReadOnlyViolation, s) /\
  (forall (data : list Z) (size : Z), size <> 0 ->
     lgw_fpga_reg_wb drv regs id (Some data) size s = (ReadOnlyViolation, s)) /\
  (forall (data : option (list Z)) (size : Z),
     snd (lgw_fpga_reg_wb drv regs id data size s) = s /\
     ret_code (fst (lgw_fpga_reg_wb drv regs id data size s)) = LGW_REG_ERROR).
Proof.
  intros Hid Hr Hro s. layer_unfold. in_table Hid Hr. cbn. rewrite Hro.
  repeat split.
  - intros data size Hsz. by apply Z.eqb_neq in Hsz as ->.
  - destruct data as [data|]; [|done]. by destruct (size =? 0).
  - destruct data as [data|]; [|done]. by destruct (size =? 0).
Qed.

Lemma read_only_write_rejected_witness :
  lgw_fpga_reg_w mem_spi fpga_regs 8 7 (connected 1 ∅) = (ReadOnlyViolation, connected 1 ∅) /\
  lgw_fpga_reg_wb mem_spi fpga_regs 5 (Some [1; 2]) 2 (connected 1 ∅)
    = (ReadOnlyViolation, connected 1 ∅).
Proof.
  split.
  - apply (read_only_write_rejected mem_spi fpga_regs 1 ∅ [] 8 7 (mk_reg (-1) 10 0 false 32 true 0));
      [lia | reflexivity | reflexivity].
  - apply (read_only_write_rejected mem_spi fpga_regs 1 ∅ [] 5 0 (mk_reg (-1) 5 0 false 8 true 0));
      [lia | reflexivity | reflexivity | lia].
Defined.

(** ** The connection handshake *)

(** The state in which [lgw_fpga_connect] opens the link: the old link, if
    any, has been closed. *)
Lemma connect_unfold {W} (drv : spi_driver W) (regs : list lgw_reg_s) (s : lgw_state W) :
  lgw_fpga_connect drv regs s =
  let s0 := snd ((if spi_target s is Some _ then call_close drv (spi_target s)
                  else ret LGW_SPI_SUCCESS) s) in
  let '(st_open, s1) := call_open drv s0 in
  if negb (st_open =? LGW_SPI_SUCCESS) then (OpenFailed, s1) else
  let '(st_read, u, s2) :=
    call_r drv (spi_target s1) FPGA_SPI_MUX_FPGA_REG
      (addr (regs !!! LGW_FPGA_VERSION)) 0 s1 in
  if negb (st_read =? LGW_SPI_SUCCESS) then (VersionReadFailed, s2)
  else if (u =? 0) || (u =? 255) then (DeviceAbsent, s2)
  else if negb (u =? dflt (regs !!! LGW_FPGA_VERSION)) then (VersionMismatch, s2)
  else (Success, s2).
Proof.
  unfold lgw_fpga_connect, bind, get_target, ret.
  destruct (spi_target s) as [h|]; cbn.
  - destruct (call_close drv (Some h) s) as [c s0]; cbn.
    destruct (call_open drv s0) as [st s1].
    destruct (negb (st =? LGW_SPI_SUCCESS)); [done|].
    destruct (call_r drv _ _ _ _ s1) as [[st' u] s2].
    by repeat case_match.
  - destruct (call_open drv s) as [st s1].
    destruct (negb (st =? LGW_SPI_SUCCESS)); [done|].
    destruct (call_r drv _ _ _ _ s1) as [[st' u] s2].
    by repeat case_match.
Qed.

(** C7, as the code has it. [lgw_fpga_connect] reads the version register;
    when the byte read is 0x00 or 0xFF it exits at the device-absent check,
    and when the byte is another value that differs from the default of
    the version descriptor it exits at the version check.  The caller
    receives the same LGW_REG_ERROR from both, as from every other
    failing exit of the layer: the return value tells success from
    failure only. *)
Theorem connect_handshake_failures {W} (drv : spi_driver W) (regs : list lgw_reg_s)
    (s : lgw_state W) :
  let s0 := snd ((if spi_target s is Some _ then call_close drv (spi_target s)
                  else ret LGW_SPI_SUCCESS) s) in
  let '(st_open, s1) := call_open drv s0 in
  let '(st_read, u, s2) :=
    call_r drv (spi_target s1) FPGA_SPI_MUX_FPGA_REG
      (addr (regs !!! LGW_FPGA_VERSION)) 0 s1 in
  st_open = LGW_SPI_SUCCESS -> st_read = LGW_SPI_SUCCESS ->
  (u = 0 \/ u = 255 -> lgw_fpga_connect drv regs s = (DeviceAbsent, s2)) /\
  (u <> 0 -> u <> 255 -> u <> dflt (regs !!! LGW_FPGA_VERSION) ->
   lgw_fpga_connect drv regs s = (VersionMismatch, s2)) /\
  ret_code DeviceAbsent = ret_code VersionMismatch /\
  (forall e : reg_exit, e <> Success -> ret_code e = LGW_REG_ERROR).
Proof.
  rewrite connect_unfold. cbn zeta.
  destruct (call_open drv _) as [st_open s1].
  destruct (call_r drv _ _ _ _ s1) as [[st_read u] s2].
  intros -> ->. cbn. repeat split.
  - intros [-> | ->]; done.
  - intros H0 H255 Hd.
    apply Z.eqb_neq in H0 as ->. apply Z.eqb_neq in H255 as ->.
    by apply Z.eqb_neq in Hd as ->.
  - intros e He. by apply ret_code_error.
Qed.

Lemma connect_handshake_failures_witness :
  lgw_fpga_connect mem_spi fpga_regs (disconnected (mem_with 1 255))
    = (DeviceAbsent,
       mk_state (Some 1) (mem_with 1 255) [SpiOpen; SpiR (Some 1) 1 1]) /\
  lgw_fpga_connect mem_spi fpga_regs (disconnected (mem_with 1 19))
    = (VersionMismatch,
       mk_state (Some 1) (mem_with 1 19) [SpiOpen; SpiR (Some 1) 1 1]).
Proof.
  split.
  - pose proof (connect_handshake_failures mem_spi fpga_regs
                  (disconnected (mem_with 1 255))) as H.
    cbn in H. destruct (H eq_refl eq_refl) as (Ha & _). apply Ha. by right.
  - pose proof (connect_handshake_failures mem_spi fpga_regs
                  (disconnected (mem_with 1 19))) as H.
    cbn in H. destruct (H eq_refl eq_refl) as (_ & Hm & _). by apply Hm.
Defined.

(** C7, as stated, fails: a device-absent failure and a version mismatch
    reach the caller as the same return value. *)
Lemma handshake_failures_same_code :
  let a := fst (lgw_fpga_connect mem_spi fpga_regs (disconnected (mem_with 1 0))) in
  let b := fst (lgw_fpga_connect mem_spi fpga_regs (disconnected (mem_with 1 19))) in
  a = DeviceAbsent /\ b = VersionMismatch /\ ret_code a = ret_code b.
Proof. vm_compute. done. Qed.

(** The calls to the driver never touch [spi_target], apart from the open. *)
Lemma call_close_target {W} (drv : spi_driver W) t (s : lgw_state W) :
  spi_target (snd (call_close drv t s)) = spi_target s.
Proof. unfold call_close. by destruct (lgw_fpga_spi_close _ _ _). Qed.

Lemma call_close_world {W} (drv : spi_driver W) t (s : lgw_state W) :
  spi_world (snd (call_close drv t s)) = snd (lgw_fpga_spi_close drv t (spi_world s)).
Proof. unfold call_close. by destruct (lgw_fpga_spi_close _ _ _). Qed.

Lemma call_r_target {W} (drv : spi_driver W) t mux a c (s : lgw_state W) :
  spi_target (snd (call_r drv t mux a c s)) = spi_target s.
Proof. unfold call_r. by destruct (lgw_fpga_spi_r _ _ _ _ _ _) as [[? ?] ?]. Qed.

(** C8, as the code has it. The connection state is the handle that the
    driver's open leaves in [spi_target]: whatever the exit of
    [lgw_fpga_connect], the handle afterwards is the one the open left.  A
    failing open makes the call exit with an error, and when it leaves the
    handle null the state is disconnected: every later Read or Write of a
    register of the table exits at the connection check, with the state and
    the call log unchanged.  A successful exit requires a successful
    open. *)
Theorem connect_state_follows_open {W} (drv : spi_driver W) (regs : list lgw_reg_s)
    (s : lgw_state W) :
  let s0 := snd ((if spi_target s is Some _ then call_close drv (spi_target s)
                  else ret LGW_SPI_SUCCESS) s) in
  let '(st_open, t, _) := lgw_fpga_spi_open drv (spi_target s0) (spi_world s0) in
  let '(e, s') := lgw_fpga_connect drv regs s in
  spi_target s' = t /\
  (e = Success -> st_open = LGW_SPI_SUCCESS) /\
  (st_open <> LGW_SPI_SUCCESS -> e = OpenFailed) /\
  (t = None -> forall id v old : Z, 0 <= id < LGW_FPGA_TOTALREGS regs ->
     lgw_fpga_reg_w drv regs id v s' = (NotConnected, s') /\
     lgw_fpga_reg_r drv regs id (Some old) s' = (NotConnected, Some old, s')).
Proof.
  rewrite connect_unfold. cbn zeta.
  set (s0 := snd _).
  unfold call_open.
  destruct (lgw_fpga_spi_open drv _ _) as [[st_open t] w1].
  destruct (Z.eqb_spec st_open LGW_SPI_SUCCESS) as [Hst | Hst]; cbn [negb].
  - pose proof (call_r_target drv (spi_target (mk_state t w1 (spi_calls s0 ++ [SpiOpen])))
                  FPGA_SPI_MUX_FPGA_REG (addr (regs !!! LGW_FPGA_VERSION)) 0
                  (mk_state t w1 (spi_calls s0 ++ [SpiOpen]))) as Ht.
    destruct (call_r drv _ _ _ _ _) as [[st_read u] s2]. cbn in Ht.
    assert (forall e, let '(e0, s') := (e, s2) in
       spi_target s' = t /\ (e0 = Success -> st_open = LGW_SPI_SUCCESS) /\
       (st_open <> LGW_SPI_SUCCESS -> e0 = OpenFailed) /\
       (t = None -> forall id v old : Z, 0 <= id < LGW_FPGA_TOTALREGS regs ->
          lgw_fpga_reg_w drv regs id v s' = (NotConnected, s') /\
          lgw_fpga_reg_r drv regs id (Some old) s' = (NotConnected, Some old, s')))
      as Hall.
    { intros e. split; [done | split; [done | split; [done |]]].
      intros Hnone id v old Hid.
      layer_unfold.
      destruct (Z.leb_spec (LGW_FPGA_TOTALREGS regs) id); [lia|].
      cbn. rewrite Ht, Hnone. done. }
    repeat case_match; simplify_eq; apply Hall.
  - split; [done | split; [done | split; [done |]]].
    intros Hnone id v old Hid. layer_unfold. cbn. rewrite Hnone.
    destruct (Z.leb_spec (LGW_FPGA_TOTALREGS regs) id); [lia | done].
Qed.

Lemma connect_state_follows_open_witness :
  lgw_fpga_connect dead_spi fpga_regs (disconnected tt) = (OpenFailed, mk_state None tt [SpiOpen]) /\
  lgw_fpga_reg_w dead_spi fpga_regs 3 5 (mk_state None tt [SpiOpen])
    = (NotConnected, mk_state None tt [SpiOpen]).
Proof.
  pose proof (connect_state_follows_open dead_spi fpga_regs (disconnected tt)) as H.
  cbn in H. destruct H as (_ & _ & Hfail & Hgate).
  split; [reflexivity|].
  apply (Hgate eq_refl 3 5 0). unfold LGW_FPGA_TOTALREGS. cbn. lia.
Defined.

(** C8, as stated, fails: a connect whose handshake fails leaves the link
    open, and the next Read and Write go through to the device. *)
Lemma failed_handshake_stays_connected :
  let '(e, s') := lgw_fpga_connect mem_spi fpga_regs (disconnected ∅) in
  e = DeviceAbsent /\ ret_code e = LGW_REG_ERROR /\ spi_target s' = Some 1 /\
  fst (lgw_fpga_reg_r mem_spi fpga_regs 3 (Some 0) s') = (Success, Some 0) /\
  fst (lgw_fpga_reg_w mem_spi fpga_regs 3 5 s') = Success /\
  fst (lgw_fpga_reg_w mem_spi fpga_regs 3 5 s') <> NotConnected.
Proof. vm_compute. repeat split; discriminate. Qed.

(** ** The result cell of a Read *)




(** ** Bit arithmetic of the marshaling *)

Lemma uint8_land (x : Z) : uint8_t x = Z.land x (Z.ones 8).
Proof. unfold uint8_t. by rewrite Z.land_ones. Qed.

Lemma uint8_small (x : Z) : is_uint8 x -> uint8_t x = x.
Proof. unfold is_uint8, uint8_t. intros H. by apply Z.mod_small. Qed.

Lemma uint8_is_uint8 (x : Z) : is_uint8 (uint8_t x).
Proof. unfold is_uint8, uint8_t. apply Z.mod_pos_bound. lia. Qed.

Lemma int32_small (x : Z) : is_int32 x -> int32_t x = x.
Proof.
  unfold is_int32, int32_t. intros H. rewrite Z.mod_small; lia.
Qed.

Lemma land_255 (x : Z) : Z.land 255 x = x mod 2 ^ 8.
Proof. rewrite Z.land_comm. change 255 with (Z.ones 8). by rewrite Z.land_ones. Qed.

Lemma field_mask_ones (r : lgw_reg_s) :
  field_mask r = Z.shiftl (Z.ones (leng r)) (offs r).
Proof. unfold field_mask. by rewrite Z.ones_equiv, Z.shiftl_1_l, Z.sub_1_r. Qed.

(** The byte mixed by the code is the byte the specification asks for. *)
Lemma reg_w_mix_rmw (r : lgw_reg_s) (v old : Z) :
  is_uint8 old -> 0 <= offs r -> 0 <= leng r -> offs r + leng r <= 8 ->
  reg_w_mix r v [old; 0; 0; 0] !!! 3%nat = rmw_byte r old v.
Proof.
  intros Hold Ho Hl Hs. unfold reg_w_mix, rmw_byte. cbn.
  fold (field_mask r). rewrite field_mask_ones, !uint8_land.
  assert (Hb : old = Z.land old (Z.ones 8)).
  { rewrite Z.land_ones by lia. symmetry. apply Z.mod_small. apply Hold. }
  rewrite Hb at 2.
  Z.bitblast.
Qed.

Lemma rmw_byte_frame (r : lgw_reg_s) (old v i : Z) :
  0 <= i -> Z.testbit (field_mask r) i = false ->
  Z.testbit (rmw_byte r old v) i = Z.testbit old i.
Proof.
  intros Hi Hm. unfold rmw_byte.
  rewrite Z.lor_spec, !Z.land_spec, Z.lnot_spec, Hm by lia.
  cbn. by rewrite andb_false_r, andb_true_r, orb_false_r.
Qed.

Lemma rmw_byte_field (r : lgw_reg_s) (old v : Z) :
  0 <= offs r -> 0 <= leng r ->
  Z.shiftr (rmw_byte r old v) (offs r) mod 2 ^ leng r = v mod 2 ^ leng r.
Proof.
  intros Ho Hl. unfold rmw_byte. rewrite field_mask_ones.
  rewrite <- !Z.land_ones by lia.
  Z.bitblast.
Qed.

Lemma truncate_field_mod (n : Z) (sg : bool) (x y : Z) :
  x mod 2 ^ n = y mod 2 ^ n -> truncate_field n sg x = truncate_field n sg y.
Proof. unfold truncate_field. by intros ->. Qed.

Lemma truncate_field_range (n : Z) (sg : bool) (v : Z) :
  1 <= n ->
  if sg then - 2 ^ (n - 1) <= truncate_field n sg v <= 2 ^ (n - 1) - 1
  else 0 <= truncate_field n sg v <= 2 ^ n - 1.
Proof.
  intros Hn. unfold truncate_field.
  assert (H2 : 2 ^ n = 2 * 2 ^ (n - 1)).
  { rewrite <- Z.pow_succ_r by lia. f_equal. lia. }
  pose proof (Z.mod_pos_bound v (2 ^ n) ltac:(lia)) as Hb.
  destruct sg; cbn.
  - destruct (Z.leb_spec (2 ^ (n - 1)) (v mod 2 ^ n)); lia.
  - lia.
Qed.

(** The single-byte Read, checked on every byte and every geometry. *)
Lemma byte_read_all_true :
  forallb (fun o => forallb (fun l =>
    (8 <? o + l) ||
    forallb (fun b => byte_read_ok o l true b && byte_read_ok o l false b)
            (seqZ 0 256))
    (seqZ 1 8)) (seqZ 0 8) = true.
Proof. vm_compute. reflexivity. Qed.

Lemma forallb_seqZ (P : Z -> bool) (m n x : Z) :
  forallb P (seqZ m n) = true -> m <= x < m + n -> P x = true.
Proof.
  intros Hall Hx. rewrite forallb_forall in Hall.
  apply Hall, list_elem_of_In, elem_of_seqZ. exact Hx.
Qed.

Lemma reg_r_byte_field (r : lgw_reg_s) (b : Z) :
  is_uint8 b -> 0 <= offs r -> 1 <= leng r -> offs r + leng r <= 8 ->
  reg_r_byte r [b; 0; 0; 0] = truncate_field (leng r) (sign r) (Z.shiftr b (offs r)).
Proof.
  intros Hb Ho Hl Hs.
  pose proof byte_read_all_true as Hall.
  apply forallb_seqZ with (x := offs r) in Hall; [|lia].
  apply forallb_seqZ with (x := leng r) in Hall; [|lia].
  apply orb_true_iff in Hall as [Hbad | Hall].
  { apply Z.ltb_lt in Hbad. lia. }
  apply forallb_seqZ with (x := b) in Hall; [|unfold is_uint8 in Hb; lia].
  apply andb_true_iff in Hall as [Ht Hf].
  unfold byte_read_ok in Ht, Hf. apply Z.eqb_eq in Ht, Hf.
  destruct r as [pg ad o sg l ro df].
  destruct sg; [exact Ht | exact Hf].
Qed.

(** Splitting into bytes and assembling them again keeps the low bytes. *)
Lemma split_assemble (n : nat) (v : Z) :
  (2 <= n <= 4)%nat ->
  reg_r_assemble n
    (uint8_t <$> (take n (reg_w_split n 0 v [0; 0; 0; 0]) ++ drop n [0; 0; 0; 0])) 0
  = v mod 2 ^ (8 * Z.of_nat n).
Proof.
  intros Hn.
  assert (Hc : n = 2%nat \/ n = 3%nat \/ n = 4%nat) by lia.
  destruct Hc as [-> | [-> | ->]];
    cbn -[Z.pow Z.shiftl Z.shiftr Z.land Z.mul];
    unfold uint32_t, uint8_t;
    rewrite !land_255, !Z.shiftl_mul_pow2, !Z.shiftr_div_pow2 by lia;
    Z.div_mod_to_equations; lia.
Qed.

(** Left-align in 32 bits, then shift back arithmetically: sign extension. *)
Lemma sign_extend_word (u l : Z) :
  1 <= l <= 32 ->
  Z.shiftr (int32_t (uint32_t (Z.shiftl u (32 - l)))) (32 - l) = truncate_field l true u.
Proof.
  intros Hl. unfold int32_t, uint32_t, truncate_field. cbn [andb].
  rewrite Z.shiftl_mul_pow2, Z.shiftr_div_pow2 by lia.
  set (k := 32 - l).
  assert (Hk : 0 < 2 ^ k) by (apply Z.pow_pos_nonneg; lia).
  assert (Hl1 : 0 < 2 ^ (l - 1)) by (apply Z.pow_pos_nonneg; lia).
  assert (H2l : 2 ^ l = 2 * 2 ^ (l - 1)).
  { rewrite <- Z.pow_succ_r by lia. f_equal. lia. }
  assert (H32 : 2 ^ 32 = 2 ^ l * 2 ^ k).
  { rewrite <- Z.pow_add_r by lia. f_equal. lia. }
  assert (H31 : 2 ^ 31 = 2 ^ (l - 1) * 2 ^ k).
  { rewrite <- Z.pow_add_r by lia. f_equal. lia. }
  rewrite H32 at 1. rewrite Z.mul_mod_distr_r by lia.
  pose proof (Z.mod_pos_bound u (2 ^ l) ltac:(lia)) as Hf.
  set (f := u mod 2 ^ l) in *.
  rewrite H31.
  destruct (Z.leb_spec (2 ^ (l - 1)) f) as [Hge | Hlt].
  - replace ((f * 2 ^ k + 2 ^ (l - 1) * 2 ^ k) mod 2 ^ 32)
      with (f * 2 ^ k + 2 ^ (l - 1) * 2 ^ k - 2 ^ 32).
    + replace (f * 2 ^ k + 2 ^ (l - 1) * 2 ^ k - 2 ^ 32 - 2 ^ (l - 1) * 2 ^ k)
        with ((f - 2 ^ l) * 2 ^ k) by (rewrite H32; lia).
      by rewrite Z.div_mul by lia.
    + apply Z.mod_unique with 1; rewrite H32, H2l in *; nia.
  - rewrite Z.mod_small by (rewrite H32, H2l in *; nia).
    replace (f * 2 ^ k + 2 ^ (l - 1) * 2 ^ k - 2 ^ (l - 1) * 2 ^ k) with (f * 2 ^ k) by lia.
    by rewrite Z.div_mul by lia.
Qed.

(** ** The memory device *)

Lemma mem_store_below (mux a a' : Z) (data : list Z) (w : gmap (Z * Z) Z) :
  a < a' -> mem_load1 mux a (mem_store mux a' data w) = mem_load1 mux a w.
Proof.
  revert a' w. induction data as [|b data IH]; intros a' w Ha; cbn; [done|].
  rewrite IH by lia. unfold mem_load1.
  rewrite lookup_insert_ne; [done|]. intros [=]. lia.
Qed.

Lemma mem_load_store (mux a : Z) (data : list Z) (w : gmap (Z * Z) Z) :
  mem_load mux a (length data) (mem_store mux a data w) = data.
Proof.
  revert a w. induction data as [|b data IH]; intros a w; cbn; [done|].
  rewrite IH. f_equal.
  rewrite mem_store_below by lia. unfold mem_load1.
  by rewrite lookup_insert_eq.
Qed.

(** ** Sub-byte write *)

(** C3. For a writable descriptor with offs + leng <= 8 that is not the
    whole byte, a Write reads the byte at the descriptor's address, then
    writes back exactly (oldByte & ~mask) | ((value << offs) & mask) with
    mask = ((1 << leng) - 1) << offs, whatever byte the device returned
    and whatever the value; every bit of the written byte outside the mask
    is the bit of oldByte. *)
Theorem sub_byte_write_preserves_siblings {W} (drv : spi_driver W)
    (regs : list lgw_reg_s) (h : handle) (w : W) (calls : list spi_call)
    (id v : Z) (r : lgw_reg_s) :
  0 <= id -> regs !! Z.to_nat id = Some r -> reg_typed r -> rdon r = false ->
  offs r + leng r <= 8 -> ~ (leng r = 8 /\ offs r = 0) ->
  let '(st_r, b, w1) :=
    lgw_fpga_spi_r drv (Some h) FPGA_SPI_MUX_FPGA_REG (addr r) 0 w in
  let oldByte := uint8_t b in
  let newByte := rmw_byte r oldByte v in
  let '(st_w, w2) :=
    lgw_fpga_spi_w drv (Some h) FPGA_SPI_MUX_FPGA_REG (addr r) newByte w1 in
  lgw_fpga_reg_w drv regs id v (mk_state (Some h) w calls) =
    (check_spi_stat (st_r + st_w),
     mk_state (Some h) w2
       (calls ++ [SpiR (Some h) FPGA_SPI_MUX_FPGA_REG (addr r);
                  SpiW (Some h) FPGA_SPI_MUX_FPGA_REG (addr r) newByte])) /\
  (forall i : Z, 0 <= i -> Z.testbit (field_mask r) i = false ->
     Z.testbit newByte i = Z.testbit oldByte i).
Proof.
  intros Hid Hr (_ & _ & [Ho _] & [Hl _] & _) Hrw Hsum Hnot.
  layer_unfold. in_table Hid Hr. cbn -[reg_w_mix]. rewrite Hrw.
  assert (Hdirect : (leng r =? 8) && (offs r =? 0) = false).
  { apply andb_false_iff.
    destruct (Z.eqb_spec (leng r) 8), (Z.eqb_spec (offs r) 0); tauto. }
  rewrite Hdirect.
  apply Z.leb_le in Hsum as Hsumb. rewrite Hsumb.
  destruct (lgw_fpga_spi_r drv _ _ _ _ _) as [[st_r b] w1]. cbn [spi_world spi_calls spi_target].
  rewrite (reg_w_mix_rmw r v (uint8_t b)) by (auto using uint8_is_uint8).
  destruct (lgw_fpga_spi_w drv _ _ _ _ _) as [st_w w2].
  split.
  - by rewrite <- app_assoc.
  - intros i Hi Hm. by apply rmw_byte_frame.
Qed.

Lemma sub_byte_write_preserves_siblings_witness :
  lgw_fpga_reg_w mem_spi test_regs 1 5 (connected 1 (mem_with 1 255)) =
    (Success,
     mk_state (Some 1) (<[(1, 1) := 253]> (mem_with 1 255))
       [SpiR (Some 1) 1 1; SpiW (Some 1) 1 1 253]) /\
  Z.testbit 253 3 = Z.testbit 255 3.
Proof.
  pose proof (sub_byte_write_preserves_siblings mem_spi test_regs 1 (mem_with 1 255) [] 1 5
                (mk_reg (-1) 1 0 false 3 false 0)) as H.
  assert (Ht : reg_typed (mk_reg (-1) 1 0 false 3 false 0)).
  { unfold reg_typed, is_uint8, is_int32. cbn. lia. }
  specialize (H ltac:(lia) eq_refl Ht eq_refl ltac:(cbn; lia) ltac:(cbn; lia)).
  cbn in H. destruct H as [Hrun Hbits].
  split; [exact Hrun|].
  apply (Hbits 3); [lia | reflexivity].
Defined.

(** Two fields sharing the byte at address 1: each keeps the value last
    written to it. *)
Example sibling_fields_keep_values :
  let s0 := connected 1 ∅ in
  let s1 := snd (lgw_fpga_reg_w mem_spi test_regs 1 5 s0) in
  let s2 := snd (lgw_fpga_reg_w mem_spi test_regs 2 (-3) s1) in
  let s3 := snd (lgw_fpga_reg_w mem_spi test_regs 1 2 s2) in
  fst (lgw_fpga_reg_r mem_spi test_regs 1 (Some 0) s2) = (Success, Some 5) /\
  fst (lgw_fpga_reg_r mem_spi test_regs 2 (Some 0) s2) = (Success, Some (-3)) /\
  fst (lgw_fpga_reg_r mem_spi test_regs 1 (Some 0) s3) = (Success, Some 2) /\
  fst (lgw_fpga_reg_r mem_spi test_regs 2 (Some 0) s3) = (Success, Some (-3)).
Proof. vm_compute. done. Qed.

(** ** Signed read *)

(** The Read loop spells the bytes least significant first. *)
Lemma reg_r_assemble_le_value (n : nat) (bufu : list Z) :
  (n <= 4)%nat -> (n <= length bufu)%nat -> Forall is_uint8 bufu ->
  reg_r_assemble n bufu 0 = le_value (take n bufu) /\
  0 <= le_value (take n bufu) < 2 ^ (8 * Z.of_nat n).
Proof.
  intros Hn Hlen Hall.
  assert (Hc : n = 0%nat \/ n = 1%nat \/ n = 2%nat \/ n = 3%nat \/ n = 4%nat) by lia.
  unfold is_uint8 in Hall.
  destruct Hc as [-> | [-> | [-> | [-> | ->]]]].
  1: by cbn.
  all: repeat (destruct bufu as [|? bufu]; [cbn in Hlen; lia|];
               apply Forall_cons in Hall as [? Hall]).
  all: change (2 ^ (8 * Z.of_nat 1)) with (2 ^ 8);
    change (2 ^ (8 * Z.of_nat 2)) with (2 ^ 16);
    change (2 ^ (8 * Z.of_nat 3)) with (2 ^ 24);
    change (2 ^ (8 * Z.of_nat 4)) with (2 ^ 32).
  all: cbn -[Z.pow Z.shiftl Z.mul]; rewrite take_0; cbn [le_value];
    unfold uint32_t; rewrite !Z.shiftl_mul_pow2 by lia;
    split; [Z.div_mod_to_equations; lia | lia].
Qed.


Lemma to_nat_size_byte (l : Z) :
  8 < l <= 32 ->
  (2 <= Z.to_nat ((l + 7) / 8) <= 4)%nat /\
  8 * ((l + 7) / 8 - 1) < l <= 8 * ((l + 7) / 8).
Proof. intros Hl. split; [split|]; Z.div_mod_to_equations; lia. Qed.

Lemma reg_r_word_signed (r : lgw_reg_s) (size_byte : Z) (bufu : list Z) :
  sign r = true -> 1 <= leng r <= 32 ->
  reg_r_word r size_byte bufu =
  truncate_field (leng r) true (reg_r_assemble (Z.to_nat size_byte) bufu 0).
Proof.
  intros Hs Hl. unfold reg_r_word. rewrite Hs. by apply sign_extend_word.
Qed.

(** C4. A Read of a signed descriptor of length L (1 <= L, with a
    supported geometry) stores a value of [-2^(L-1), 2^(L-1)-1]: the
    left-align and arithmetic right shift of the code yield the two's
    complement value of the L bits of the field.  For a field inside a byte
    the Read returns the sign extension of bits offs .. offs+L-1 of the
    byte the driver delivered; for a multi-byte register it returns the
    sign extension of the low L bits of the word that the delivered bytes
    spell, least significant byte first.  For a signed 4-bit field the
    stored pattern 0b1000 reads as -8 and 0b0111 as 7. *)
Theorem signed_read_range {W} (drv : spi_driver W) (regs : list lgw_reg_s)
    (h : handle) (w : W) (calls : list spi_call) (id old : Z) (r : lgw_reg_s) :
  0 <= id -> regs !! Z.to_nat id = Some r -> reg_typed r ->
  sign r = true -> 1 <= leng r ->
  offs r + leng r <= 8 \/ (offs r = 0 /\ leng r <= 32) ->
  (exists v : Z,
     snd (fst (lgw_fpga_reg_r drv regs id (Some old) (mk_state (Some h) w calls)))
       = Some v /\
     - 2 ^ (leng r - 1) <= v <= 2 ^ (leng r - 1) - 1) /\
  (forall b : Z, is_uint8 b -> offs r + leng r <= 8 ->
     reg_r_byte r [b; 0; 0; 0] = truncate_field (leng r) true (Z.shiftr b (offs r))) /\
  (forall (size_byte : Z) (bufu : list Z), leng r <= 32 ->
     reg_r_word r size_byte bufu =
     truncate_field (leng r) true (reg_r_assemble (Z.to_nat size_byte) bufu 0)) /\
  (forall (m : gmap (Z * Z) Z) (b : Z),
     leng r = 4 -> is_uint8 b -> m !! (FPGA_SPI_MUX_FPGA_REG, addr r) = Some b ->
     (Z.shiftr b (offs r) mod 2 ^ 4 = 8 ->
      fst (lgw_fpga_reg_r mem_spi regs id (Some old) (mk_state (Some h) m calls))
        = (Success, Some (-8))) /\
     (Z.shiftr b (offs r) mod 2 ^ 4 = 7 ->
      fst (lgw_fpga_reg_r mem_spi regs id (Some old) (mk_state (Some h) m calls))
        = (Success, Some 7))) /\
  (offs r + leng r <= 8 ->
   let '(st, b, w') :=
     lgw_fpga_spi_r drv (Some h) FPGA_SPI_MUX_FPGA_REG (addr r) 0 w in
   lgw_fpga_reg_r drv regs id (Some old) (mk_state (Some h) w calls) =
     (check_spi_stat st,
      Some (truncate_field (leng r) true (Z.shiftr (uint8_t b) (offs r))),
      mk_state (Some h) w'
        (calls ++ [SpiR (Some h) FPGA_SPI_MUX_FPGA_REG (addr r)]))) /\
  (8 < offs r + leng r ->
   let size_byte := (leng r + 7) / 8 in
   let '(st, d, w') :=
     lgw_fpga_spi_rb drv (Some h) FPGA_SPI_MUX_FPGA_REG (addr r) [0; 0; 0; 0]
       size_byte w in
   (Z.to_nat size_byte <= length d)%nat ->
   lgw_fpga_reg_r drv regs id (Some old) (mk_state (Some h) w calls) =
     (check_spi_stat st,
      Some (truncate_field (leng r) true
              (le_value (take (Z.to_nat size_byte) (uint8_t <$> d)))),
      mk_state (Some h) w'
        (calls ++ [SpiRb (Some h) FPGA_SPI_MUX_FPGA_REG (addr r) size_byte]))).
Proof.
  intros Hid Hr (_ & _ & [Ho _] & [_ Hl8] & _) Hs Hl Hgeo.
  split; [|split; [|split; [|split; [|split]]]].
  - layer_unfold. in_table Hid Hr. cbn -[reg_r_byte reg_r_word Z.pow].
    destruct (Z.leb_spec (offs r + leng r) 8) as [Hsum | Hsum].
    + destruct (lgw_fpga_spi_r drv _ _ _ _ _) as [[st b] w1].
      cbn -[reg_r_byte Z.pow]. eexists. split; [reflexivity|].
      rewrite reg_r_byte_field, Hs by (auto using uint8_is_uint8).
      pose proof (truncate_field_range (leng r) true (Z.shiftr (uint8_t b) (offs r)) Hl) as Hrange.
      exact Hrange.
    + destruct Hgeo as [Hgeo | [Hoff Hl32]]; [lia|].
      rewrite Hoff. cbn -[reg_r_word Z.pow].
      assert (Hpos : (0 <? leng r) = true) by (apply Z.ltb_lt; lia).
      assert (Hle : (leng r <=? 32) = true) by (apply Z.leb_le; lia).
      rewrite Hpos, Hle. cbn -[reg_r_word Z.pow].
      destruct (lgw_fpga_spi_rb drv _ _ _ _ _ _) as [[st d] w1].
      cbn -[reg_r_word Z.pow]. eexists. split; [reflexivity|].
      rewrite reg_r_word_signed by (done || lia).
      exact (truncate_field_range (leng r) true _ Hl).
  - intros b Hb Hsum. rewrite reg_r_byte_field by done. by rewrite Hs.
  - intros size_byte bufu Hl32. apply reg_r_word_signed; [done | lia].
  - intros m b Hl4 Hb Hm.
    assert (Hsum : offs r + leng r <= 8) by (destruct Hgeo as [? | [? ?]]; lia).
    assert (Hrun : fst (lgw_fpga_reg_r mem_spi regs id (Some old) (mk_state (Some h) m calls))
                   = (Success, Some (truncate_field 4 true (Z.shiftr b (offs r))))).
    { layer_unfold. in_table Hid Hr. cbn -[reg_r_byte Z.pow].
      apply Z.leb_le in Hsum as ->. cbn -[reg_r_byte Z.pow].
      unfold mem_load1. rewrite Hm. cbn -[reg_r_byte Z.pow].
      rewrite uint8_small by done.
      rewrite reg_r_byte_field by (done || lia). by rewrite Hs, Hl4. }
    rewrite Hrun. unfold truncate_field.
    split; intros ->; reflexivity.
  - intros Hsum. layer_unfold. in_table Hid Hr. cbn -[reg_r_byte Z.pow].
    apply Z.leb_le in Hsum as Hsumb. rewrite Hsumb.
    destruct (lgw_fpga_spi_r drv _ _ _ _ _) as [[st b] w1].
    cbn -[reg_r_byte Z.pow].
    by rewrite reg_r_byte_field, Hs by solve [apply uint8_is_uint8 | lia].
  - intros Hsum size_byte.
    destruct Hgeo as [Hgeo | [Hoff Hl32]]; [lia|].
    assert (Hlen : 8 < leng r <= 32) by lia.
    destruct (to_nat_size_byte (leng r) Hlen) as [Hn _]. fold size_byte in Hn.
    destruct (lgw_fpga_spi_rb drv _ _ _ _ _ _) as [[st d] w1] eqn:Hrb.
    intros Hd.
    assert (Hbytes : Forall is_uint8 (uint8_t <$> d)).
    { apply Forall_fmap, Forall_forall. intros x _. apply uint8_is_uint8. }
    destruct (reg_r_assemble_le_value (Z.to_nat size_byte) (uint8_t <$> d))
      as [Hasm _]; [lia | by rewrite length_fmap | done |].
    layer_unfold. in_table Hid Hr. cbn -[reg_r_word Z.div Z.pow].
    rewrite Hoff. change (0 + leng r) with (leng r).
    assert (Hsumb : (leng r <=? 8) = false) by (apply Z.leb_gt; lia).
    assert (Hpos : (0 <? leng r) = true) by (apply Z.ltb_lt; lia).
    assert (Hle : (leng r <=? 32) = true) by (apply Z.leb_le; lia).
    rewrite Hsumb, Hpos, Hle. cbn -[reg_r_word Z.div Z.pow]. fold size_byte.
    rewrite Hrb. cbn -[reg_r_word Z.div Z.pow].
    by rewrite reg_r_word_signed, Hasm by (done || lia).
Qed.

Lemma signed_read_range_witness :
  fst (lgw_fpga_reg_r mem_spi test_regs 0 (Some 0) (connected 1 (mem_with 0 32)))
    = (Success, Some (-8)) /\
  fst (lgw_fpga_reg_r mem_spi test_regs 0 (Some 0) (connected 1 (mem_with 0 28)))
    = (Success, Some 7) /\
  lgw_fpga_reg_r mem_spi test_regs 5 (Some 0)
    (connected 1 (mem_store 1 8 [0; 8] ∅))
    = (Success, Some (-2048),
       mk_state (Some 1) (mem_store 1 8 [0; 8] ∅) [SpiRb (Some 1) 1 8 2]).
Proof.
  set (r := mk_reg (-1) 0 2 true 4 false 0).
  assert (Ht : reg_typed r).
  { unfold reg_typed, is_uint8, is_int32. cbn. lia. }
  assert (Hid : 0 <= 0) by lia.
  assert (Hl : 1 <= leng r) by (cbn; lia).
  assert (Hgeo : offs r + leng r <= 8 \/ (offs r = 0 /\ leng r <= 32)) by (left; cbn; lia).
  split; [|split].
  - pose proof (signed_read_range mem_spi test_regs 1 (mem_with 0 32) [] 0 0 r
                  Hid eq_refl Ht eq_refl Hl Hgeo) as (_ & _ & _ & H & _).
    apply (H (mem_with 0 32) 32); [reflexivity | unfold is_uint8; lia | reflexivity | reflexivity].
  - pose proof (signed_read_range mem_spi test_regs 1 (mem_with 0 28) [] 0 0 r
                  Hid eq_refl Ht eq_refl Hl Hgeo) as (_ & _ & _ & H & _).
    apply (H (mem_with 0 28) 28); [reflexivity | unfold is_uint8; lia | reflexivity | reflexivity].
  - set (r5 := mk_reg (-1) 8 0 true 12 false 0).
    assert (Ht5 : reg_typed r5).
    { unfold reg_typed, is_uint8, is_int32. cbn. lia. }
    assert (Hid5 : 0 <= 5) by lia.
    assert (Hl5 : 1 <= leng r5) by (cbn; lia).
    assert (Hgeo5 : offs r5 + leng r5 <= 8 \/ (offs r5 = 0 /\ leng r5 <= 32))
      by (right; cbn; lia).
    pose proof (signed_read_range mem_spi test_regs 1 (mem_store 1 8 [0; 8] ∅) [] 5 0 r5
                  Hid5 eq_refl Ht5 eq_refl Hl5 Hgeo5) as (_ & _ & _ & _ & _ & H).
    assert (Hcross : 8 < offs r5 + leng r5) by (cbn; lia).
    specialize (H Hcross). vm_compute in H.
    vm_compute. apply H. lia.
Defined.

(** ** Multi-byte registers *)

Lemma reg_w_split_bytes (n : nat) (v : Z) :
  (2 <= n <= 4)%nat ->
  uint8_t <$> (take n (reg_w_split n 0 v [0; 0; 0; 0]) ++ drop n [0; 0; 0; 0])
  = reg_w_split n 0 v [0; 0; 0; 0].
Proof.
  intros Hn.
  assert (Hc : n = 2%nat \/ n = 3%nat \/ n = 4%nat) by lia.
  destruct Hc as [-> | [-> | ->]];
    cbn -[Z.pow Z.shiftr Z.land]; unfold uint8_t;
    by rewrite ?Z.mod_mod by lia.
Qed.

Lemma reg_w_split_byte (n : nat) (v i : Z) :
  (2 <= n <= 4)%nat -> 0 <= i < Z.of_nat n ->
  reg_w_split n 0 v [0; 0; 0; 0] !! Z.to_nat i = Some ((v / 2 ^ (8 * i)) mod 2 ^ 8).
Proof.
  intros Hn Hi.
  assert (Hc : n = 2%nat \/ n = 3%nat \/ n = 4%nat) by lia.
  assert (Hci : i = 0 \/ i = 1 \/ i = 2 \/ i = 3) by lia.
  destruct Hc as [-> | [-> | ->]]; destruct Hci as [-> | [-> | [-> | ->]]];
    try lia;
    change (Z.to_nat 0) with 0%nat; change (Z.to_nat 1) with 1%nat;
    change (Z.to_nat 2) with 2%nat; change (Z.to_nat 3) with 3%nat;
    cbn -[Z.pow Z.shiftr Z.land Z.div Z.modulo]; f_equal; unfold uint8_t;
    rewrite !land_255, ?Z.shiftr_div_pow2 by lia;
    change (2 ^ 0) with 1; Z.div_mod_to_equations; lia.
Qed.

Lemma reg_w_split_length (n i : nat) (v : Z) (buf : list Z) :
  length (reg_w_split n i v buf) = length buf.
Proof.
  revert i v buf. induction n as [|n IH]; intros i v buf; cbn; [done|].
  by rewrite IH, length_insert.
Qed.

(** On the memory device a multi-byte Write followed by a Read hands the
    bytes of the Write to the word assembly of the Read. *)
Lemma mem_word_round_trip (regs : list lgw_reg_s) (h : handle)
    (m : gmap (Z * Z) Z) (calls : list spi_call) (id v old : Z) (r : lgw_reg_s) :
  0 <= id -> regs !! Z.to_nat id = Some r -> rdon r = false ->
  offs r = 0 -> 8 < leng r <= 32 ->
  let size_byte := (leng r + 7) / 8 in
  let buf := reg_w_split (Z.to_nat size_byte) 0 v [0; 0; 0; 0] in
  let '(e1, s1) := lgw_fpga_reg_w mem_spi regs id v (mk_state (Some h) m calls) in
  e1 = Success /\
  spi_calls s1 = calls ++ [SpiWb (Some h) FPGA_SPI_MUX_FPGA_REG (addr r) buf size_byte] /\
  fst (lgw_fpga_reg_r mem_spi regs id (Some old) s1)
    = (Success, Some (reg_r_word r size_byte buf)).
Proof.
  intros Hid Hr Hrw Hoff Hl size_byte buf.
  destruct (to_nat_size_byte (leng r) Hl) as [Hn _]. fold size_byte in Hn.
  layer_unfold. in_table Hid Hr.
  cbn -[reg_w_split reg_r_word Z.div]. rewrite Hrw, Hoff.
  assert (H8 : (leng r =? 8) = false) by (apply Z.eqb_neq; lia).
  assert (Hsum : (leng r <=? 8) = false) by (apply Z.leb_gt; lia).
  assert (Hpos : (0 <? leng r) = true) by (apply Z.ltb_lt; lia).
  assert (Hle : (leng r <=? 32) = true) by (apply Z.leb_le; lia).
  change (0 + leng r) with (leng r).
  rewrite H8, Hsum, Hpos, Hle. cbn -[reg_w_split reg_r_word Z.div].
  fold size_byte. fold buf.
  split; [done|]. split; [done|].
  rewrite ?Hsum, ?Hpos, ?Hle. cbn -[reg_w_split reg_r_word Z.div]. fold size_byte.
  assert (Hlen : length (take (Z.to_nat size_byte) buf) = Z.to_nat size_byte).
  { rewrite length_take. unfold buf. rewrite reg_w_split_length. cbn. lia. }
  rewrite <- Hlen at 1. rewrite mem_load_store.
  unfold buf. by rewrite reg_w_split_bytes.
Qed.

Lemma split_assemble_raw (n : nat) (v : Z) :
  (2 <= n <= 4)%nat ->
  reg_r_assemble n (reg_w_split n 0 v [0; 0; 0; 0]) 0 = v mod 2 ^ (8 * Z.of_nat n).
Proof.
  intros Hn. rewrite <- reg_w_split_bytes by done. by apply split_assemble.
Qed.

(** C2, as the code has it. For a writable descriptor with offs = 0 and
    8 < leng <= 32, a Write in the connected state makes one driver call, a
    burst at the descriptor's address of ceil(leng/8) bytes, byte i being
    bits 8i..8i+7 of the value (least significant first); the Read loop
    assembles such bytes, least significant first, into the value modulo
    2^(8*size).  Writing 0x12345678 to a writable 32-bit register sends
    [0x78, 0x56, 0x34, 0x12], and the Read that follows yields
    0x12345678. *)
Theorem multi_byte_write_burst {W} (drv : spi_driver W) (regs : list lgw_reg_s)
    (h : handle) (w : W) (calls : list spi_call) (id v : Z) (r : lgw_reg_s) :
  0 <= id -> regs !! Z.to_nat id = Some r -> reg_typed r -> rdon r = false ->
  offs r = 0 -> 8 < leng r <= 32 -> is_int32 v ->
  let size_byte := (leng r + 7) / 8 in
  let buf := reg_w_split (Z.to_nat size_byte) 0 v [0; 0; 0; 0] in
  8 * (size_byte - 1) < leng r <= 8 * size_byte /\
  (let '(st, w') :=
     lgw_fpga_spi_wb drv (Some h) FPGA_SPI_MUX_FPGA_REG (addr r) buf size_byte w in
   lgw_fpga_reg_w drv regs id v (mk_state (Some h) w calls) =
     (check_spi_stat st,
      mk_state (Some h) w'
        (calls ++ [SpiWb (Some h) FPGA_SPI_MUX_FPGA_REG (addr r) buf size_byte]))) /\
  (forall i : Z, 0 <= i < size_byte ->
     buf !! Z.to_nat i = Some ((v / 2 ^ (8 * i)) mod 2 ^ 8)) /\
  reg_r_assemble (Z.to_nat size_byte) buf 0 = v mod 2 ^ (8 * size_byte) /\
  (leng r = 32 -> v = 305419896 ->
   size_byte = 4 /\ buf = [120; 86; 52; 18] /\
   forall (m : gmap (Z * Z) Z) (old : Z),
     fst (lgw_fpga_reg_r mem_spi regs id (Some old)
            (snd (lgw_fpga_reg_w mem_spi regs id v (mk_state (Some h) m calls))))
     = (Success, Some 305419896)).
Proof.
  intros Hid Hr Ht Hrw Hoff Hl Hv size_byte buf.
  destruct (to_nat_size_byte (leng r) Hl) as [Hn Hceil].
  fold size_byte in Hn, Hceil.
  split; [exact Hceil|]. split; [|split; [|split]].
  - layer_unfold. in_table Hid Hr.
    cbn -[reg_w_split Z.div]. rewrite Hrw, Hoff.
    assert (H8 : (leng r =? 8) = false) by (apply Z.eqb_neq; lia).
    assert (Hsum : (leng r <=? 8) = false) by (apply Z.leb_gt; lia).
    assert (Hpos : (0 <? leng r) = true) by (apply Z.ltb_lt; lia).
    assert (Hle : (leng r <=? 32) = true) by (apply Z.leb_le; lia).
    change (0 + leng r) with (leng r).
    rewrite H8, Hsum, Hpos, Hle. cbn -[reg_w_split Z.div].
    fold size_byte. fold buf.
    by destruct (lgw_fpga_spi_wb drv _ _ _ _ _ _) as [st w'].
  - intros i Hi. apply reg_w_split_byte; [done | lia].
  - unfold buf. rewrite split_assemble_raw by done. f_equal. f_equal. lia.
  - intros H32 ->.
    assert (Hsz : size_byte = 4) by (unfold size_byte; by rewrite H32).
    split; [done|]. split; [unfold buf; by rewrite Hsz|].
    intros m old.
    pose proof (mem_word_round_trip regs h m calls id 305419896 old r
                  Hid Hr Hrw Hoff Hl) as Hrt.
    cbn zeta in Hrt. fold size_byte in Hrt.
    destruct (lgw_fpga_reg_w mem_spi regs id 305419896 _) as [e1 s1].
    cbn [snd]. destruct Hrt as (_ & _ & ->). f_equal. f_equal.
    rewrite Hsz. unfold reg_r_word. rewrite H32.
    by destruct (sign r).
Qed.

Lemma multi_byte_write_burst_witness :
  lgw_fpga_reg_w mem_spi test_regs 4 305419896 (connected 1 ∅) =
    (Success,
     mk_state (Some 1) (mem_store 1 4 [120; 86; 52; 18] ∅)
       [SpiWb (Some 1) 1 4 [120; 86; 52; 18] 4]) /\
  fst (lgw_fpga_reg_r mem_spi test_regs 4 (Some 0)
         (snd (lgw_fpga_reg_w mem_spi test_regs 4 305419896 (connected 1 ∅))))
    = (Success, Some 305419896).
Proof.
  set (r := mk_reg (-1) 4 0 false 32 false 0).
  assert (Ht : reg_typed r).
  { unfold reg_typed, is_uint8, is_int32. cbn. lia. }
  assert (Hid : 0 <= 4) by lia.
  assert (Hl : 8 < leng r <= 32) by (cbn; lia).
  assert (Hv : is_int32 305419896) by (unfold is_int32; lia).
  pose proof (multi_byte_write_burst mem_spi test_regs 1 ∅ [] 4 305419896 r
                Hid eq_refl Ht eq_refl eq_refl Hl Hv) as (_ & Hw & _ & _ & Hex).
  split.
  - exact Hw.
  - destruct (Hex eq_refl eq_refl) as (_ & _ & Hrd). apply (Hrd ∅ 0).
Defined.

(** C2, as stated, fails for a read-only descriptor: TIMESTAMP, the one
    32-bit register of [fpga_regs], has offs = 0 and leng = 32, and a
    Write of 0x12345678 to it sends no byte at all. *)
Lemma read_only_word_emits_nothing :
  let r := mk_reg (-1) 10 0 false 32 true 0 in
  fpga_regs !! 8%nat = Some r /\ offs r = 0 /\ 8 < leng r <= 32 /\
  lgw_fpga_reg_w mem_spi fpga_regs 8 305419896 (connected 1 ∅)
    = (ReadOnlyViolation, connected 1 ∅) /\
  spi_calls (snd (lgw_fpga_reg_w mem_spi fpga_regs 8 305419896 (connected 1 ∅))) = [] /\
  spi_calls (snd (lgw_fpga_reg_w mem_spi fpga_regs 8 305419896 (connected 1 ∅)))
    <> [SpiWb (Some 1) FPGA_SPI_MUX_FPGA_REG 10 [120; 86; 52; 18] 4].
Proof.
  cbn zeta. split; [reflexivity|]. split; [reflexivity|]. split; [cbn; lia|].
  split; [reflexivity|]. split; [reflexivity|]. cbn. discriminate.
Qed.

(** ** Round trip on the memory device *)

(** A field of at most a byte: Write then Read yields the low [leng] bits
    of the value, sign-extended for a signed descriptor. *)
Lemma mem_byte_round_trip (regs : list lgw_reg_s) (h : handle)
    (m : gmap (Z * Z) Z) (calls : list spi_call) (id v old : Z) (r : lgw_reg_s) :
  0 <= id -> regs !! Z.to_nat id = Some r -> rdon r = false ->
  0 <= offs r -> 1 <= leng r -> offs r + leng r <= 8 ->
  let '(e1, s1) := lgw_fpga_reg_w mem_spi regs id v (mk_state (Some h) m calls) in
  e1 = Success /\
  fst (lgw_fpga_reg_r mem_spi regs id (Some old) s1)
    = (Success, Some (truncate_field (leng r) (sign r) v)).
Proof.
  intros Hid Hr Hrw Ho Hl Hsum.
  layer_unfold. in_table Hid Hr.
  cbn -[reg_w_mix reg_r_byte Z.pow]. rewrite Hrw.
  apply Z.leb_le in Hsum as Hsumb. rewrite Hsumb.
  destruct ((leng r =? 8) && (offs r =? 0)) eqn:Hdirect.
  - apply andb_true_iff in Hdirect as [H8 H0].
    apply Z.eqb_eq in H8, H0.
    cbn -[reg_r_byte Z.pow]. split; [done|].
    unfold mem_load1. rewrite lookup_insert_eq. cbn -[reg_r_byte Z.pow].
    rewrite (uint8_small (uint8_t v)) by apply uint8_is_uint8.
    rewrite reg_r_byte_field by (auto using uint8_is_uint8).
    f_equal. f_equal. apply truncate_field_mod.
    rewrite H0, H8, Z.shiftr_0_r. unfold uint8_t. by rewrite Z.mod_mod by lia.
  - cbn -[reg_w_mix reg_r_byte Z.pow]. split; [done|].
    rewrite reg_w_mix_rmw by solve [apply uint8_is_uint8 | lia].
    unfold mem_load1 at 1. rewrite lookup_insert_eq. cbn -[reg_r_byte Z.pow].
    set (old_byte := uint8_t (mem_load1 FPGA_SPI_MUX_FPGA_REG (addr r) m)).
    assert (Hnew : is_uint8 (rmw_byte r old_byte v)).
    { rewrite <- (reg_w_mix_rmw r v old_byte) by solve [apply uint8_is_uint8 | lia].
      unfold reg_w_mix. cbn -[Z.pow]. apply uint8_is_uint8. }
    rewrite uint8_small by done.
    rewrite reg_r_byte_field by (done || lia).
    f_equal. f_equal. apply truncate_field_mod, rmw_byte_field; lia.
Qed.

Lemma truncate_field_int32 (n : Z) (sg : bool) (v : Z) :
  1 <= n -> (if sg then n <= 32 else n <= 31) -> is_int32 (truncate_field n sg v).
Proof.
  intros Hn Hle. pose proof (truncate_field_range n sg v Hn) as Hr.
  unfold is_int32.
  destruct sg.
  - assert (2 ^ (n - 1) <= 2 ^ 31) by (apply Z.pow_le_mono_r; lia). lia.
  - assert (2 ^ n <= 2 ^ 31) by (apply Z.pow_le_mono_r; lia). lia.
Qed.

Lemma mod_pow2_mod_pow2 (v a b : Z) :
  0 <= b <= a -> (v mod 2 ^ a) mod 2 ^ b = v mod 2 ^ b.
Proof.
  intros Hab. apply Z.mod_mod_divide.
  exists (2 ^ (a - b)). rewrite <- Z.pow_add_r by lia. f_equal. lia.
Qed.

(** C1, as the code has it. On the memory device, for a writable
    descriptor with a supported geometry and at least one bit, Write(id, v)
    followed by Read(id) succeeds and yields the low [stored_width] bits of
    v, sign-extended when the descriptor is signed, as an int32.  The
    stored width is the field's length for a field of at most a byte, for a
    signed field and for a field of whole bytes, and then the result is v
    truncated (and sign-extended) to the field's length; an unsigned
    multi-byte field of another length comes back with all the bits of its
    ceil(leng/8) bytes. *)
Theorem write_read_round_trip (regs : list lgw_reg_s) (h : handle)
    (m : gmap (Z * Z) Z) (calls : list spi_call) (id v old : Z) (r : lgw_reg_s) :
  0 <= id -> regs !! Z.to_nat id = Some r -> reg_typed r -> rdon r = false ->
  1 <= leng r -> offs r + leng r <= 8 \/ (offs r = 0 /\ leng r <= 32) ->
  is_int32 v ->
  let '(e1, s1) := lgw_fpga_reg_w mem_spi regs id v (mk_state (Some h) m calls) in
  let '(e2, out) := fst (lgw_fpga_reg_r mem_spi regs id (Some old) s1) in
  e1 = Success /\ e2 = Success /\
  out = Some (int32_t (truncate_field (stored_width r) (sign r) v)) /\
  (offs r + leng r <= 8 \/ sign r = true \/ leng r mod 8 = 0 ->
   out = Some (int32_t (truncate_field (leng r) (sign r) v))) /\
  (leng r = 32 -> out = Some v).
Proof.
  intros Hid Hr (_ & _ & [Ho _] & _ & _) Hrw Hl Hgeo Hv.
  assert (Hmain :
    let '(e1, s1) := lgw_fpga_reg_w mem_spi regs id v (mk_state (Some h) m calls) in
    e1 = Success /\
    fst (lgw_fpga_reg_r mem_spi regs id (Some old) s1)
      = (Success, Some (int32_t (truncate_field (stored_width r) (sign r) v)))).
  { destruct (Z.le_gt_cases (offs r + leng r) 8) as [Hsum | Hsum].
    - pose proof (mem_byte_round_trip regs h m calls id v old r
                    Hid Hr Hrw Ho Hl Hsum) as Hrt.
      destruct (lgw_fpga_reg_w mem_spi regs id v _) as [e1 s1].
      destruct Hrt as [-> ->]. split; [done|].
      unfold stored_width. apply Z.leb_le in Hsum as Hsumb. rewrite Hsumb. cbn [orb].
      rewrite int32_small; [done|].
      pose proof (truncate_field_range (leng r) (sign r) v Hl) as Hrange.
      assert (H7 : 2 ^ (leng r - 1) <= 2 ^ 7) by (apply Z.pow_le_mono_r; lia).
      assert (H8 : 2 ^ leng r <= 2 ^ 8) by (apply Z.pow_le_mono_r; lia).
      unfold is_int32. destruct (sign r); lia.
    - destruct Hgeo as [Hgeo | [Hoff Hl32]]; [lia|].
      assert (Hlen : 8 < leng r <= 32) by lia.
      pose proof (mem_word_round_trip regs h m calls id v old r
                    Hid Hr Hrw Hoff Hlen) as Hrt.
      cbn zeta in Hrt.
      destruct (to_nat_size_byte (leng r) Hlen) as [Hn Hceil].
      destruct (lgw_fpga_reg_w mem_spi regs id v _) as [e1 s1].
      destruct Hrt as (-> & _ & ->). split; [done|]. f_equal. f_equal.
      unfold stored_width, reg_r_word.
      assert (Hsumb : (offs r + leng r <=? 8) = false) by (apply Z.leb_gt; lia).
      rewrite Hsumb. cbn [orb].
      rewrite split_assemble_raw by done.
      rewrite Z2Nat.id by lia.
      destruct (sign r).
      + rewrite sign_extend_word by lia.
        rewrite int32_small by (apply truncate_field_int32; lia).
        apply truncate_field_mod, mod_pow2_mod_pow2. lia.
      + done. }
  destruct (lgw_fpga_reg_w mem_spi regs id v _) as [e1 s1].
  destruct Hmain as [-> Hread].
  destruct (lgw_fpga_reg_r mem_spi regs id (Some old) s1) as [[e2 out] s2].
  cbn [fst] in *. injection Hread as -> ->.
  split; [done|]. split; [done|]. split; [done|]. split.
  - intros Hcase. f_equal. f_equal. unfold stored_width.
    destruct (Z.leb_spec (offs r + leng r) 8) as [Hsum | Hsum]; [done|].
    destruct (sign r); [done|]. cbn [orb].
    destruct Hcase as [Hc | [Hc | Hc]]; [lia | done |].
    f_equal. Z.div_mod_to_equations. lia.
  - intros H32. f_equal. unfold stored_width.
    assert (Hsumb : (offs r + leng r <=? 8) = false) by (apply Z.leb_gt; lia).
    rewrite Hsumb, H32. cbn [orb].
    destruct (sign r).
    + unfold truncate_field. cbn [andb]. unfold int32_t, is_int32 in *.
      destruct (Z.leb_spec (2 ^ (32 - 1)) (v mod 2 ^ 32));
        Z.div_mod_to_equations; lia.
    + unfold truncate_field. cbn [andb]. unfold int32_t, is_int32 in *.
      change (8 * ((32 + 7) / 8)) with 32.
      Z.div_mod_to_equations; lia.
Qed.

Lemma write_read_round_trip_witness :
  fst (lgw_fpga_reg_r mem_spi test_regs 5 (Some 0)
         (snd (lgw_fpga_reg_w mem_spi test_regs 5 2048 (connected 1 ∅))))
    = (Success, Some (-2048)).
Proof.
  set (r := mk_reg (-1) 8 0 true 12 false 0).
  assert (Ht : reg_typed r).
  { unfold reg_typed, is_uint8, is_int32. cbn. lia. }
  assert (Hid : 0 <= 5) by lia.
  assert (Hl : 1 <= leng r) by (cbn; lia).
  assert (Hgeo : offs r + leng r <= 8 \/ (offs r = 0 /\ leng r <= 32)) by (right; cbn; lia).
  assert (Hv : is_int32 2048) by (unfold is_int32; lia).
  pose proof (write_read_round_trip test_regs 1 ∅ [] 5 2048 0 r
                Hid eq_refl Ht eq_refl Hl Hgeo Hv) as H.
  vm_compute in H. destruct H as (_ & _ & Hout & _).
  vm_compute. exact (f_equal (pair Success) Hout).
Defined.

(** C1, as stated, fails: an unsigned 12-bit register at offset 0 is a
    valid, writable geometry, yet writing 0xFFFF and reading back yields
    0xFFFF, not the value truncated to 12 bits, 0x0FFF. *)
Lemma unsigned_12_bit_keeps_16_bits :
  let r := mk_reg (-1) 2 0 false 12 false 0 in
  test_regs !! 3%nat = Some r /\
  offs r = 0 /\ 1 <= leng r <= 32 /\ rdon r = false /\ is_int32 65535 /\
  fst (lgw_fpga_reg_r mem_spi test_regs 3 (Some 0)
         (snd (lgw_fpga_reg_w mem_spi test_regs 3 65535 (connected 1 ∅))))
    = (Success, Some 65535) /\
  truncate_field 12 false 65535 = 4095 /\
  fst (lgw_fpga_reg_r mem_spi test_regs 3 (Some 0)
         (snd (lgw_fpga_reg_w mem_spi test_regs 3 65535 (connected 1 ∅))))
    <> (Success, Some (truncate_field 12 false 65535)).
Proof.
  cbn zeta. unfold is_int32.
  split; [reflexivity|]. split; [reflexivity|]. split; [cbn; lia|].
  split; [reflexivity|]. split; [lia|].
  split; [vm_compute; reflexivity|]. split; [reflexivity|].
  vm_compute. discriminate.
Qed.

(** ** The table of the source *)

(** Every entry of [fpga_regs] holds values of its C types and has a
    geometry that the Read and Write routines support. *)
Lemma fpga_regs_supported :
  Forall (fun r => reg_typed r /\ 1 <= leng r /\
                   (offs r + leng r <= 8 \/ (offs r = 0 /\ leng r <= 32)))
         fpga_regs.
Proof.
  unfold fpga_regs, reg_typed, is_uint8, is_int32.
  repeat constructor; cbn; lia.
Qed.

(** On the table of the source every writable register survives a round
    trip unchanged up to its width: its multi-byte registers have 16 or 32
    bits. *)
Lemma fpga_regs_whole_bytes :
  Forall (fun r => offs r + leng r <= 8 \/ leng r mod 8 = 0) fpga_regs.
Proof. unfold fpga_regs. repeat constructor; cbn; lia. Qed.

(** * Further properties of the layer *)

(** ** What the register functions never do *)

Ltac layer_cases :=
  layer_unfold; cbn;
  repeat (case_match; cbn; simplify_eq; try done).

(** X1. None of the register functions, scalar or burst, and neither
    SX1272 pass-through changes the connection handle: only connect and
    disconnect do. *)
Theorem register_access_keeps_handle {W} (drv : spi_driver W)
    (regs : list lgw_reg_s) (s : lgw_state W) (id v size a : Z)
    (cell : option Z) (data : option (list Z)) :
  spi_target (snd (lgw_fpga_reg_w drv regs id v s)) = spi_target s /\
  spi_target (snd (lgw_fpga_reg_r drv regs id cell s)) = spi_target s /\
  spi_target (snd (lgw_fpga_reg_wb drv regs id data size s)) = spi_target s /\
  spi_target (snd (lgw_fpga_reg_rb drv regs id data size s)) = spi_target s /\
  spi_target (snd (lgw_sx1272_reg_w drv a v s)) = spi_target s /\
  spi_target (snd (lgw_sx1272_reg_r drv a v s)) = spi_target s.
Proof.
  repeat split; layer_cases.
Qed.

(** X2. A Read and a burst read never write to the device: each adds at
    most one call to the call log, and that call is a single-byte or
    burst read.  On the memory device they leave the memory as it is. *)
Theorem read_never_writes {W} (drv : spi_driver W) (regs : list lgw_reg_s)
    (s : lgw_state W) (sm : lgw_state (gmap (Z * Z) Z)) (id size : Z)
    (cell : option Z) (data : option (list Z)) :
  (exists l : list spi_call,
     spi_calls (snd (lgw_fpga_reg_r drv regs id cell s)) = spi_calls s ++ l /\
     (length l <= 1)%nat /\ forallb is_read_call l = true) /\
  (exists l : list spi_call,
     spi_calls (snd (lgw_fpga_reg_rb drv regs id data size s)) = spi_calls s ++ l /\
     (length l <= 1)%nat /\ forallb is_read_call l = true) /\
  spi_world (snd (lgw_fpga_reg_r mem_spi regs id cell sm)) = spi_world sm /\
  spi_world (snd (lgw_fpga_reg_rb mem_spi regs id data size sm)) = spi_world sm.
Proof.
  split; [|split; [|split]].
  - layer_cases;
      first [ exists []; rewrite app_nil_r; cbn; split; [done | split; [lia | done]]
            | eexists [_]; cbn; split; [reflexivity | split; [lia | reflexivity]] ].
  - layer_cases;
      first [ exists []; rewrite app_nil_r; cbn; split; [done | split; [lia | done]]
            | eexists [_]; cbn; split; [reflexivity | split; [lia | reflexivity]] ].
  - layer_cases.
  - layer_cases.
Qed.

(** ** Disconnecting *)

(** X3. Disconnecting a connected layer closes the link with the handle in
    use, clears the handle and reports success, whatever status the
    driver's close returns; every Read and Write of a register of the
    table that follows exits at the connection check, and a second
    disconnect reports an error and calls nothing. *)
Theorem disconnect_closes_link {W} (drv : spi_driver W) (regs : list lgw_reg_s)
    (h : handle) (w : W) (calls : list spi_call) :
  let s' := mk_state None (snd (lgw_fpga_spi_close drv (Some h) w))
              (calls ++ [SpiClose (Some h)]) in
  lgw_fpga_disconnect drv (mk_state (Some h) w calls) = (Success, s') /\
  lgw_fpga_disconnect drv s' = (AlreadyDisconnected, s') /\
  ret_code AlreadyDisconnected = LGW_REG_ERROR /\
  (forall id v old : Z, 0 <= id < LGW_FPGA_TOTALREGS regs ->
     lgw_fpga_reg_w drv regs id v s' = (NotConnected, s') /\
     lgw_fpga_reg_r drv regs id (Some old) s' = (NotConnected, Some old, s')).
Proof.
  cbn zeta. split; [|split; [|split]].
  - layer_unfold. cbn. by destruct (lgw_fpga_spi_close drv (Some h) w).
  - done.
  - done.
  - intros id v old Hid. layer_unfold.
    destruct (Z.leb_spec (LGW_FPGA_TOTALREGS regs) id); [lia | done].
Qed.

Lemma disconnect_closes_link_witness :
  lgw_fpga_disconnect dead_spi (connected 7 tt)
    = (Success, mk_state None tt [SpiClose (Some 7)]) /\
  lgw_fpga_reg_w dead_spi fpga_regs 3 5 (mk_state None tt [SpiClose (Some 7)])
    = (NotConnected, mk_state None tt [SpiClose (Some 7)]).
Proof.
  pose proof (disconnect_closes_link dead_spi fpga_regs 7 tt []) as H.
  cbn zeta in H. destruct H as (Hd & _ & _ & Hgate).
  split; [exact Hd|].
  apply (Hgate 3 5 0). unfold LGW_FPGA_TOTALREGS. cbn. lia.
Defined.

(** ** Connecting *)

(** X4. The driver calls of a connect, in order: a close of the old
    handle when there is one, the open, and, when the open succeeded, one
    read of the version register through the handle the open left.
    Nothing else is called; in particular a failed handshake closes
    nothing. *)
Theorem connect_call_sequence {W} (drv : spi_driver W) (regs : list lgw_reg_s)
    (s : lgw_state W) :
  let closes := if spi_target s is Some _ then [SpiClose (spi_target s)] else [] in
  let w0 := if spi_target s is Some _
            then snd (lgw_fpga_spi_close drv (spi_target s) (spi_world s))
            else spi_world s in
  let '(st_open, t, _) := lgw_fpga_spi_open drv (spi_target s) w0 in
  spi_calls (snd (lgw_fpga_connect drv regs s)) =
    spi_calls s ++ closes ++ [SpiOpen] ++
    (if st_open =? LGW_SPI_SUCCESS
     then [SpiR t FPGA_SPI_MUX_FPGA_REG (addr (regs !!! LGW_FPGA_VERSION))]
     else []).
Proof.
  rewrite connect_unfold. cbn zeta.
  unfold call_open, call_close, call_r, ret.
  destruct (spi_target s) as [h|] eqn:Ht; cbn.
  - destruct (lgw_fpga_spi_close drv (Some h) (spi_world s)) as [c w0]. cbn. rewrite Ht.
    destruct (lgw_fpga_spi_open drv (Some h) w0) as [[st t] w1].
    destruct (st =? LGW_SPI_SUCCESS); cbn.
    + destruct (lgw_fpga_spi_r drv t _ _ _ w1) as [[st' b] w2].
      repeat case_match; cbn; by rewrite <- !app_assoc.
    + by rewrite <- !app_assoc.
  - rewrite Ht.
    destruct (lgw_fpga_spi_open drv None (spi_world s)) as [[st t] w1].
    destruct (st =? LGW_SPI_SUCCESS); cbn.
    + destruct (lgw_fpga_spi_r drv t _ _ _ w1) as [[st' b] w2].
      repeat case_match; cbn; by rewrite <- !app_assoc.
    + done.
Qed.

(** X5. A connect succeeds exactly when the open succeeds, the read of the
    version register succeeds, and the byte read is the default of the
    version descriptor and neither 0x00 nor 0xFF.  So with a table whose
    version default is 0, 255 or no byte value at all, no connect ever
    succeeds. *)
Theorem connect_success_iff {W} (drv : spi_driver W) (regs : list lgw_reg_s)
    (s : lgw_state W) :
  let s0 := snd ((if spi_target s is Some _ then call_close drv (spi_target s)
                  else ret LGW_SPI_SUCCESS) s) in
  let '(st_open, s1) := call_open drv s0 in
  let '(st_read, u, _) :=
    call_r drv (spi_target s1) FPGA_SPI_MUX_FPGA_REG
      (addr (regs !!! LGW_FPGA_VERSION)) 0 s1 in
  let d := dflt (regs !!! LGW_FPGA_VERSION) in
  (fst (lgw_fpga_connect drv regs s) = Success <->
   st_open = LGW_SPI_SUCCESS /\ st_read = LGW_SPI_SUCCESS /\
   u = d /\ u <> 0 /\ u <> 255) /\
  (d <= 0 \/ 255 <= d -> fst (lgw_fpga_connect drv regs s) <> Success).
Proof.
  rewrite connect_unfold. cbn zeta.
  destruct (call_open drv _) as [st_open s1].
  pose proof (uint8_is_uint8
    (snd (fst (lgw_fpga_spi_r drv (spi_target s1) FPGA_SPI_MUX_FPGA_REG
                 (addr (regs !!! LGW_FPGA_VERSION)) 0 (spi_world s1))))) as Hu.
  unfold call_r.
  destruct (lgw_fpga_spi_r drv _ _ _ _ _) as [[st_read b] w2]. cbn [fst snd] in *.
  unfold is_uint8 in Hu.
  destruct (Z.eqb_spec st_open LGW_SPI_SUCCESS) as [Ho | Ho]; cbn [negb fst].
  2: { split; [split; [done | tauto] | done]. }
  destruct (Z.eqb_spec st_read LGW_SPI_SUCCESS) as [Hr | Hr]; cbn [negb fst].
  2: { split; [split; [done | tauto] | done]. }
  destruct (Z.eqb_spec (uint8_t b) 0) as [H0 | H0]; cbn [orb fst].
  { split; [split; [done | tauto] | done]. }
  destruct (Z.eqb_spec (uint8_t b) 255) as [H255 | H255]; cbn [orb fst].
  { split; [split; [done | tauto] | done]. }
  destruct (Z.eqb_spec (uint8_t b) (dflt (regs !!! LGW_FPGA_VERSION))) as [Hd | Hd];
    cbn [negb fst].
  - split; [split; [tauto | done] | lia].
  - split; [split; [done | tauto] | done].
Qed.

Lemma connect_success_iff_witness :
  fst (lgw_fpga_connect mem_spi fpga_regs (disconnected (mem_with 1 18))) = Success.
Proof.
  pose proof (connect_success_iff mem_spi fpga_regs (disconnected (mem_with 1 18))) as H.
  cbn in H. destruct H as [[_ H] _]. apply H.
  repeat split; discriminate.
Defined.

(** ** Geometries the scalar routines refuse *)

(** X6. In the connected state a Read of any descriptor, read-only or
    not, exits with UnsupportedGeometry exactly when the field crosses a
    byte boundary and either starts at a nonzero bit offset or is longer
    than 32 bits; a Write exits with UnsupportedGeometry exactly when, in
    addition, the descriptor is writable.  Such a call makes no driver call
    and leaves the state and the result cell as they were. *)
Theorem unsupported_geometry_iff {W} (drv : spi_driver W) (regs : list lgw_reg_s)
    (h : handle) (w : W) (calls : list spi_call) (id v old : Z) (r : lgw_reg_s) :
  0 <= id -> regs !! Z.to_nat id = Some r -> reg_typed r ->
  let s := mk_state (Some h) w calls in
  let crossing := 8 < offs r + leng r /\ (offs r <> 0 \/ 32 < leng r) in
  (fst (fst (lgw_fpga_reg_r drv regs id (Some old) s)) = UnsupportedGeometry
   <-> crossing) /\
  (fst (lgw_fpga_reg_w drv regs id v s) = UnsupportedGeometry
   <-> rdon r = false /\ crossing) /\
  (crossing ->
   lgw_fpga_reg_r drv regs id (Some old) s = (UnsupportedGeometry, Some old, s)) /\
  (crossing -> rdon r = false ->
   lgw_fpga_reg_w drv regs id v s = (UnsupportedGeometry, s)).
Proof.
  intros Hid Hr (_ & _ & [Ho _] & [Hl _] & _) s crossing. subst s crossing.
  layer_unfold. in_table Hid Hr. cbn -[reg_w_mix reg_w_split reg_r_byte reg_r_word].
  unfold check_spi_stat.
  destruct (rdon r) eqn:Hrw;
    destruct (Z.eqb_spec (leng r) 8) as [H8 | H8];
    destruct (Z.eqb_spec (offs r) 0) as [H0 | H0];
    destruct (Z.leb_spec (offs r + leng r) 8) as [Hs | Hs];
    destruct (Z.ltb_spec 0 (leng r)) as [Hp | Hp];
    destruct (Z.leb_spec (leng r) 32) as [H32 | H32];
    cbn -[reg_w_mix reg_w_split reg_r_byte reg_r_word]; try lia;
    repeat (case_match; cbn -[reg_w_mix reg_w_split reg_r_byte reg_r_word]);
    (split; [split; [done || lia | done || lia]
            | split; [split; [done || lia | intros [? ?]; done || lia]
                     | split; [done || lia | intros ? ?; done || lia]]]).
Qed.

Lemma unsupported_geometry_iff_witness :
  lgw_fpga_reg_r mem_spi [mk_reg (-1) 0 4 false 12 true 0] 0 (Some 9) (connected 1 ∅)
    = (UnsupportedGeometry, Some 9, connected 1 ∅) /\
  lgw_fpga_reg_w mem_spi [mk_reg (-1) 0 4 false 12 false 0] 0 5 (connected 1 ∅)
    = (UnsupportedGeometry, connected 1 ∅).
Proof.
  split.
  - set (r := mk_reg (-1) 0 4 false 12 true 0).
    assert (Ht : reg_typed r).
    { unfold reg_typed, is_uint8, is_int32. cbn. lia. }
    assert (Hid : 0 <= 0) by lia.
    pose proof (unsupported_geometry_iff mem_spi [r] 1 ∅ [] 0 5 9 r
                  Hid eq_refl Ht) as (_ & _ & H & _).
    apply H. cbn. lia.
  - set (r := mk_reg (-1) 0 4 false 12 false 0).
    assert (Ht : reg_typed r).
    { unfold reg_typed, is_uint8, is_int32. cbn. lia. }
    assert (Hid : 0 <= 0) by lia.
    pose proof (unsupported_geometry_iff mem_spi [r] 1 ∅ [] 0 5 9 r
                  Hid eq_refl Ht) as (_ & _ & _ & H).
    apply H; [cbn; lia | reflexivity].
Defined.

(** ** Writes and the read direction of the link *)

Lemma rmw_byte_zero (r : lgw_reg_s) (v : Z) :
  rmw_byte r 0 v = Z.land (Z.shiftl v (offs r)) (field_mask r).
Proof. unfold rmw_byte. by rewrite Z.land_0_l, Z.lor_0_l. Qed.

(** X7. A sub-byte Write does not stop when its read of the current byte
    fails: if the driver reports a failure and leaves the receive cell at
    its initial zero, the Write still sends (value << offs) & mask, a byte
    whose bits outside the field are all zero.  Over a link whose read
    direction is broken the Write ends in a TransportError and the device
    byte has lost its sibling fields. *)
Theorem failed_read_still_writes {W} (drv : spi_driver W) (regs : list lgw_reg_s)
    (h : handle) (w w1 : W) (m : gmap (Z * Z) Z) (calls : list spi_call)
    (id v st : Z) (r : lgw_reg_s) :
  0 <= id -> regs !! Z.to_nat id = Some r -> reg_typed r -> rdon r = false ->
  offs r + leng r <= 8 -> ~ (leng r = 8 /\ offs r = 0) ->
  let newByte := Z.land (Z.shiftl v (offs r)) (field_mask r) in
  (lgw_fpga_spi_r drv (Some h) FPGA_SPI_MUX_FPGA_REG (addr r) 0 w = (st, 0, w1) ->
   spi_calls (snd (lgw_fpga_reg_w drv regs id v (mk_state (Some h) w calls))) =
     calls ++ [SpiR (Some h) FPGA_SPI_MUX_FPGA_REG (addr r);
               SpiW (Some h) FPGA_SPI_MUX_FPGA_REG (addr r) newByte]) /\
  lgw_fpga_reg_w deaf_spi regs id v (mk_state (Some h) m calls) =
    (TransportError,
     mk_state (Some h) (<[(FPGA_SPI_MUX_FPGA_REG, addr r) := newByte]> m)
       (calls ++ [SpiR (Some h) FPGA_SPI_MUX_FPGA_REG (addr r);
                  SpiW (Some h) FPGA_SPI_MUX_FPGA_REG (addr r) newByte])) /\
  (forall i : Z, 0 <= i -> Z.testbit (field_mask r) i = false ->
     Z.testbit newByte i = false).
Proof.
  intros Hid Hr (_ & _ & [Ho _] & [Hl _] & _) Hrw Hsum Hnot newByte.
  assert (Hdirect : (leng r =? 8) && (offs r =? 0) = false).
  { apply andb_false_iff.
    destruct (Z.eqb_spec (leng r) 8), (Z.eqb_spec (offs r) 0); tauto. }
  apply Z.leb_le in Hsum as Hsumb.
  assert (Hmix : reg_w_mix r v [uint8_t 0; 0; 0; 0] !!! 3%nat = newByte).
  { rewrite reg_w_mix_rmw by solve [apply uint8_is_uint8 | lia].
    apply rmw_byte_zero. }
  split; [|split].
  - intros Hread. layer_unfold. in_table Hid Hr. cbn -[reg_w_mix].
    rewrite Hrw, Hdirect, Hsumb. cbn -[reg_w_mix].
    rewrite Hread. cbn -[reg_w_mix]. rewrite Hmix.
    destruct (lgw_fpga_spi_w drv _ _ _ _ _) as [st_w w2]. cbn.
    by rewrite <- app_assoc.
  - layer_unfold. in_table Hid Hr. cbn -[reg_w_mix].
    rewrite Hrw, Hdirect, Hsumb. cbn -[reg_w_mix]. rewrite Hmix.
    by rewrite <- app_assoc.
  - intros i Hi Hm. unfold newByte. by rewrite Z.land_spec, Hm, andb_false_r.
Qed.

Lemma failed_read_still_writes_witness :
  lgw_fpga_reg_w deaf_spi test_regs 1 5 (connected 1 (mem_with 1 255)) =
    (TransportError,
     mk_state (Some 1) (<[(1, 1) := 5]> (mem_with 1 255))
       [SpiR (Some 1) 1 1; SpiW (Some 1) 1 1 5]).
Proof.
  set (r := mk_reg (-1) 1 0 false 3 false 0).
  assert (Ht : reg_typed r).
  { unfold reg_typed, is_uint8, is_int32. cbn. lia. }
  assert (Hid : 0 <= 1) by lia.
  assert (Hsum : offs r + leng r <= 8) by (cbn; lia).
  assert (Hnot : ~ (leng r = 8 /\ offs r = 0)) by (cbn; lia).
  pose proof (failed_read_still_writes deaf_spi test_regs 1 (mem_with 1 255)
                (mem_with 1 255) (mem_with 1 255) [] 1 5 0 r
                Hid eq_refl Ht eq_refl Hsum Hnot) as (_ & H & _).
  exact H.
Defined.

(** X8. A Write to a writable whole-byte register (offs = 0, leng = 8)
    makes exactly one driver call, the single-byte write of value mod 256
    at the register's address; a Write to a writable multi-byte register
    (offs = 0, 8 < leng <= 32) makes exactly one driver call, the burst
    write of its ceil(leng/8) bytes at the register's address.  Neither
    reads the device, and the exit depends on the status of that one call
    only, so both succeed even over a link whose read direction is
    broken. *)
Theorem whole_byte_write_never_reads {W} (drv : spi_driver W)
    (regs : list lgw_reg_s) (h : handle) (w : W) (m : gmap (Z * Z) Z)
    (calls : list spi_call) (id v : Z) (r : lgw_reg_s) :
  0 <= id -> regs !! Z.to_nat id = Some r -> rdon r = false ->
  offs r = 0 -> 8 <= leng r <= 32 ->
  (leng r = 8 ->
   let '(st, w') :=
     lgw_fpga_spi_w drv (Some h) FPGA_SPI_MUX_FPGA_REG (addr r) (v mod 2 ^ 8) w in
   lgw_fpga_reg_w drv regs id v (mk_state (Some h) w calls) =
     (check_spi_stat st,
      mk_state (Some h) w'
        (calls ++ [SpiW (Some h) FPGA_SPI_MUX_FPGA_REG (addr r) (v mod 2 ^ 8)]))) /\
  (8 < leng r ->
   let size_byte := (leng r + 7) / 8 in
   let buf := reg_w_split (Z.to_nat size_byte) 0 v [0; 0; 0; 0] in
   let '(st, w') :=
     lgw_fpga_spi_wb drv (Some h) FPGA_SPI_MUX_FPGA_REG (addr r) buf size_byte w in
   lgw_fpga_reg_w drv regs id v (mk_state (Some h) w calls) =
     (check_spi_stat st,
      mk_state (Some h) w'
        (calls ++ [SpiWb (Some h) FPGA_SPI_MUX_FPGA_REG (addr r) buf size_byte]))) /\
  (exists c : spi_call,
     spi_calls (snd (lgw_fpga_reg_w drv regs id v (mk_state (Some h) w calls)))
       = calls ++ [c] /\
     is_read_call c = false /\
     (leng r = 8 -> c = SpiW (Some h) FPGA_SPI_MUX_FPGA_REG (addr r) (v mod 2 ^ 8))) /\
  fst (lgw_fpga_reg_w deaf_spi regs id v (mk_state (Some h) m calls)) = Success.
Proof.
  intros Hid Hr Hrw Hoff Hl.
  assert (Hpos : (0 <? leng r) = true) by (apply Z.ltb_lt; lia).
  assert (Hle : (leng r <=? 32) = true) by (apply Z.leb_le; lia).
  split; [|split; [|split]].
  - intros H8. layer_unfold. in_table Hid Hr. cbn -[reg_w_split Z.div Z.pow].
    rewrite Hrw, Hoff, H8. cbn -[Z.pow]. unfold uint8_t.
    by destruct (lgw_fpga_spi_w drv _ _ _ _ _) as [st w'].
  - intros H8 size_byte buf. layer_unfold. in_table Hid Hr.
    cbn -[reg_w_split Z.div Z.pow].
    rewrite Hrw, Hoff. change (0 + leng r) with (leng r).
    assert (Hne : (leng r =? 8) = false) by (apply Z.eqb_neq; lia).
    assert (Hsum : (leng r <=? 8) = false) by (apply Z.leb_gt; lia).
    rewrite Hne, Hsum, Hpos, Hle. cbn -[reg_w_split Z.div Z.pow].
    fold size_byte. fold buf.
    by destruct (lgw_fpga_spi_wb drv _ _ _ _ _ _) as [st w'].
  - layer_unfold. in_table Hid Hr. cbn -[reg_w_split Z.div Z.pow].
    rewrite Hrw, Hoff. change (0 + leng r) with (leng r).
    destruct (Z.eqb_spec (leng r) 8) as [H8 | H8]; cbn -[reg_w_split Z.div Z.pow].
    + destruct (lgw_fpga_spi_w drv _ _ _ _ _) as [st w'].
      cbn. eexists. split; [reflexivity|]. split; done.
    + assert (Hsum : (leng r <=? 8) = false) by (apply Z.leb_gt; lia).
      rewrite Hsum, Hpos, Hle. cbn -[reg_w_split Z.div Z.pow].
      destruct (lgw_fpga_spi_wb drv _ _ _ _ _ _) as [st w'].
      cbn -[reg_w_split Z.div Z.pow]. eexists. split; [reflexivity|]. split; [done | lia].
  - layer_unfold. in_table Hid Hr. cbn -[reg_w_split Z.div Z.pow].
    rewrite Hrw, Hoff. change (0 + leng r) with (leng r).
    destruct (Z.eqb_spec (leng r) 8) as [H8 | H8]; cbn -[reg_w_split Z.div Z.pow]; [done|].
    assert (Hsum : (leng r <=? 8) = false) by (apply Z.leb_gt; lia).
    by rewrite Hsum, Hpos, Hle.
Qed.

Lemma whole_byte_write_never_reads_witness :
  fst (lgw_fpga_reg_w deaf_spi fpga_regs 6 32000 (connected 1 ∅)) = Success /\
  lgw_fpga_reg_w deaf_spi fpga_regs 6 32000 (connected 1 ∅) =
    (Success,
     mk_state (Some 1) (mem_store 1 6 [0; 125] ∅)
       [SpiWb (Some 1) 1 6 [0; 125; 0; 0] 2]) /\
  lgw_fpga_reg_w deaf_spi fpga_regs 3 511 (connected 1 ∅) =
    (Success, mk_state (Some 1) (<[(1, 3) := 255]> ∅) [SpiW (Some 1) 1 3 255]).
Proof.
  set (r := mk_reg (-1) 6 0 false 16 false 32000).
  assert (Hid : 0 <= 6) by lia.
  assert (Hl : 8 <= leng r <= 32) by (cbn; lia).
  pose proof (whole_byte_write_never_reads deaf_spi fpga_regs 1 ∅ ∅ [] 6 32000 r
                Hid eq_refl eq_refl eq_refl Hl) as (_ & Hburst & _ & H).
  split; [exact H|]. split.
  - assert (H16 : 8 < leng r) by (cbn; lia).
    specialize (Hburst H16). exact Hburst.
  - set (r3 := mk_reg (-1) 3 0 false 8 false 0).
    assert (Hid3 : 0 <= 3) by lia.
    assert (Hl3 : 8 <= leng r3 <= 32) by (cbn; lia).
    pose proof (whole_byte_write_never_reads deaf_spi fpga_regs 1 ∅ ∅ [] 3 511 r3
                  Hid3 eq_refl eq_refl eq_refl Hl3) as (Hbyte & _).
    exact (Hbyte eq_refl).
Defined.

(** ** Which device bytes a register access touches *)

Lemma mem_store_outside (mux a : Z) (data : list Z) (w : gmap (Z * Z) Z)
    (mux' a' : Z) :
  mux' <> mux \/ a' < a \/ a + Z.of_nat (length data) <= a' ->
  mem_store mux a data w !! (mux', a') = w !! (mux', a').
Proof.
  revert a w. induction data as [|b data IH]; intros a w Hout; cbn; [done|].
  rewrite IH by (cbn in Hout; lia).
  apply lookup_insert_ne. intros [=]. cbn in Hout. lia.
Qed.

Lemma mem_load_ext (mux a : Z) (n : nat) (w1 w2 : gmap (Z * Z) Z) :
  (forall a' : Z, a <= a' < a + Z.of_nat n -> w1 !! (mux, a') = w2 !! (mux, a')) ->
  mem_load mux a n w1 = mem_load mux a n w2.
Proof.
  revert a. induction n as [|n IH]; intros a Hw; cbn; [done|].
  f_equal.
  - unfold mem_load1. rewrite Hw by lia. done.
  - apply IH. intros a' Ha'. apply Hw. lia.
Qed.

Lemma reg_w_target {W} (drv : spi_driver W) (regs : list lgw_reg_s)
    (id v : Z) (s : lgw_state W) :
  spi_target (snd (lgw_fpga_reg_w drv regs id v s)) = spi_target s.
Proof. layer_cases. Qed.

Lemma reg_w_frame (regs : list lgw_reg_s) (s : lgw_state (gmap (Z * Z) Z))
    (id v mux a : Z) :
  mux <> FPGA_SPI_MUX_FPGA_REG \/ a < addr (regs !!! Z.to_nat id) \/
  addr (regs !!! Z.to_nat id) + reg_bytes (regs !!! Z.to_nat id) <= a ->
  spi_world (snd (lgw_fpga_reg_w mem_spi regs id v s)) !! (mux, a)
  = spi_world s !! (mux, a).
Proof.
  intros Hout. set (r := regs !!! Z.to_nat id) in *.
  layer_unfold. fold r. cbn -[reg_w_mix reg_w_split Z.div].
  unfold reg_bytes in Hout.
  destruct (LGW_FPGA_TOTALREGS regs <=? id); [done|].
  destruct (spi_target s) as [h|]; [|done].
  destruct (rdon r); [done|].
  destruct (Z.eqb_spec (leng r) 8) as [H8 | H8];
    destruct (Z.eqb_spec (offs r) 0) as [H0 | H0];
    cbn -[reg_w_mix reg_w_split Z.div].
  1: { destruct (Z.leb_spec (offs r + leng r) 8); [|lia].
       apply lookup_insert_ne. intros [=]. lia. }
  all: destruct (Z.leb_spec (offs r + leng r) 8) as [Hs | Hs];
    cbn -[reg_w_mix reg_w_split Z.div];
    [ apply lookup_insert_ne; intros [=]; lia |].
  all: destruct (Z.ltb_spec 0 (leng r)); cbn -[reg_w_mix reg_w_split Z.div]; try done.
  all: destruct (Z.leb_spec (leng r) 32); cbn -[reg_w_mix reg_w_split Z.div]; try done.
  all: apply mem_store_outside; rewrite length_take;
    assert (0 <= (leng r + 7) / 8) by (apply Z.div_pos; lia); lia.
Qed.

(** X9. On the memory device a Write, whatever its arguments and its
    exit, leaves every device byte outside the register's own bytes as
    it was: the bytes of the other mux spaces, and the bytes of the
    register space below the register's address or from address +
    reg_bytes on (one byte for a field inside a byte, ceil(leng/8) for a
    multi-byte register). *)
Theorem write_touches_own_bytes (regs : list lgw_reg_s)
    (s : lgw_state (gmap (Z * Z) Z)) (id v mux a : Z) :
  let r := regs !!! Z.to_nat id in
  mux <> FPGA_SPI_MUX_FPGA_REG \/ a < addr r \/ addr r + reg_bytes r <= a ->
  spi_world (snd (lgw_fpga_reg_w mem_spi regs id v s)) !! (mux, a)
  = spi_world s !! (mux, a).
Proof. intros r Hout. by apply reg_w_frame. Qed.

Lemma write_touches_own_bytes_witness :
  spi_world (snd (lgw_fpga_reg_w mem_spi fpga_regs 6 (-1) (connected 1 (mem_with 8 77))))
    !! (FPGA_SPI_MUX_FPGA_REG, 8) = Some 77.
Proof.
  rewrite (write_touches_own_bytes fpga_regs (connected 1 (mem_with 8 77)) 6 (-1)
             FPGA_SPI_MUX_FPGA_REG 8).
  - reflexivity.
  - right. right. vm_compute. intros Hc. discriminate Hc.
Defined.

(** ** Fields of one byte on the memory device *)

Lemma rmw_byte_other_field (r1 r2 : lgw_reg_s) (old v : Z) :
  0 <= offs r1 -> 0 <= leng r1 -> 0 <= offs r2 -> 0 <= leng r2 ->
  bits_apart r1 r2 ->
  Z.shiftr (rmw_byte r1 old v) (offs r2) mod 2 ^ leng r2
  = Z.shiftr old (offs r2) mod 2 ^ leng r2.
Proof.
  intros Ho1 Hl1 Ho2 Hl2 Hap. unfold bits_apart in Hap.
  unfold rmw_byte. rewrite field_mask_ones.
  rewrite <- !Z.land_ones by lia.
  Z.bitblast.
Qed.

Lemma truncate_field_same_bits (n : Z) (sg : bool) (x : Z) :
  0 <= n -> truncate_field n sg x mod 2 ^ n = x mod 2 ^ n.
Proof.
  intros Hn. unfold truncate_field.
  destruct (sg && (2 ^ (n - 1) <=? x mod 2 ^ n)).
  - rewrite <- Zminus_mod_idemp_r, Z.mod_same, Z.sub_0_r, Z.mod_mod; [done | |];
      apply Z.pow_nonzero; lia.
  - apply Z.mod_mod. apply Z.pow_nonzero; lia.
Qed.

Lemma rmw_byte_same_field (r : lgw_reg_s) (old v : Z) :
  0 <= offs r -> 0 <= leng r ->
  v mod 2 ^ leng r = Z.shiftr old (offs r) mod 2 ^ leng r ->
  rmw_byte r old v = old.
Proof.
  intros Ho Hl Hv. unfold rmw_byte. rewrite field_mask_ones.
  rewrite <- !Z.land_ones in Hv by lia.
  apply Z.bits_inj'. intros i Hi.
  assert (Hbit : forall j, 0 <= j < leng r -> Z.testbit v j = Z.testbit old (j + offs r)).
  { intros j Hj. apply (f_equal (fun z => Z.testbit z j)) in Hv.
    rewrite !Z.land_spec, Z.shiftr_spec, Z.testbit_ones_nonneg in Hv by lia.
    destruct (Z.ltb_spec j (leng r)); [|lia].
    by rewrite !andb_true_r in Hv. }
  rewrite Z.lor_spec, !Z.land_spec, Z.lnot_spec, !Z.shiftl_spec by lia.
  destruct (Z.lt_ge_cases i (offs r)) as [Hlt | Hge].
  - rewrite (Z.testbit_neg_r _ (i - offs r)) by lia.
    by destruct (Z.testbit old i), (Z.testbit v (i - offs r)).
  - rewrite Z.testbit_ones_nonneg by lia.
    destruct (Z.ltb_spec (i - offs r) (leng r)).
    + rewrite Hbit by lia. replace (i - offs r + offs r) with i by lia.
      by destruct (Z.testbit old i).
    + by destruct (Z.testbit old i), (Z.testbit v (i - offs r)).
Qed.

Lemma rmw_byte_whole (r : lgw_reg_s) (old v : Z) :
  is_uint8 old -> leng r = 8 -> offs r = 0 -> rmw_byte r old v = uint8_t v.
Proof.
  intros Hold H8 H0. unfold rmw_byte. rewrite field_mask_ones, H8, H0, uint8_land.
  assert (Hb : old = Z.land old (Z.ones 8)).
  { rewrite Z.land_ones by lia. symmetry. apply Z.mod_small. apply Hold. }
  rewrite Hb. Z.bitblast.
Qed.

(** The byte a Read of a field inside a byte finds on the memory device. *)
Lemma mem_read_byte (regs : list lgw_reg_s) (h : handle) (m : gmap (Z * Z) Z)
    (calls : list spi_call) (id old : Z) (r : lgw_reg_s) :
  0 <= id -> regs !! Z.to_nat id = Some r ->
  0 <= offs r -> 1 <= leng r -> offs r + leng r <= 8 ->
  fst (lgw_fpga_reg_r mem_spi regs id (Some old) (mk_state (Some h) m calls)) =
    (Success,
     Some (truncate_field (leng r) (sign r)
             (Z.shiftr (uint8_t (mem_load1 FPGA_SPI_MUX_FPGA_REG (addr r) m)) (offs r)))).
Proof.
  intros Hid Hr Ho Hl Hsum. layer_unfold. in_table Hid Hr.
  cbn -[reg_r_byte Z.pow]. apply Z.leb_le in Hsum as Hsumb. rewrite Hsumb.
  cbn -[reg_r_byte Z.pow].
  by rewrite reg_r_byte_field by solve [apply uint8_is_uint8 | lia].
Qed.

(** The device memory after a Write to a field inside a byte. *)
Lemma mem_write_byte (regs : list lgw_reg_s) (h : handle) (m : gmap (Z * Z) Z)
    (calls : list spi_call) (id v : Z) (r : lgw_reg_s) :
  0 <= id -> regs !! Z.to_nat id = Some r -> rdon r = false ->
  0 <= offs r -> 0 <= leng r -> offs r + leng r <= 8 ->
  let s' := snd (lgw_fpga_reg_w mem_spi regs id v (mk_state (Some h) m calls)) in
  spi_target s' = Some h /\
  spi_world s' =
    <[(FPGA_SPI_MUX_FPGA_REG, addr r) :=
        rmw_byte r (uint8_t (mem_load1 FPGA_SPI_MUX_FPGA_REG (addr r) m)) v]> m.
Proof.
  intros Hid Hr Hrw Ho Hl Hsum. cbn zeta.
  split; [apply (reg_w_target mem_spi regs id v (mk_state (Some h) m calls))|].
  layer_unfold. in_table Hid Hr. cbn -[reg_w_mix Z.pow]. rewrite Hrw.
  apply Z.leb_le in Hsum as Hsumb. rewrite Hsumb.
  destruct ((leng r =? 8) && (offs r =? 0)) eqn:Hdirect.
  - apply andb_true_iff in Hdirect as [H8 H0]. apply Z.eqb_eq in H8, H0.
    cbn -[Z.pow]. by rewrite rmw_byte_whole by solve [apply uint8_is_uint8 | done].
  - cbn -[reg_w_mix Z.pow].
    by rewrite reg_w_mix_rmw by solve [apply uint8_is_uint8 | lia].
Qed.

Lemma rmw_byte_is_uint8 (r : lgw_reg_s) (old v : Z) :
  is_uint8 old -> 0 <= offs r -> 0 <= leng r -> offs r + leng r <= 8 ->
  is_uint8 (rmw_byte r old v).
Proof.
  intros Hold Ho Hl Hsum. rewrite <- (reg_w_mix_rmw r v old) by done.
  unfold reg_w_mix. cbn -[Z.pow]. apply uint8_is_uint8.
Qed.

Lemma state_eta {W} (s : lgw_state W) :
  s = mk_state (spi_target s) (spi_world s) (spi_calls s).
Proof. by destruct s. Qed.

(** X10. Two fields inside the same device byte that share no bit are
    independent on the memory device: a Write to the one, whatever the
    value, leaves what a Read of the other returns unchanged. *)
Theorem sibling_field_unchanged (regs : list lgw_reg_s) (h : handle)
    (m : gmap (Z * Z) Z) (calls : list spi_call) (id1 id2 v old : Z)
    (r1 r2 : lgw_reg_s) :
  0 <= id1 -> regs !! Z.to_nat id1 = Some r1 -> reg_typed r1 -> rdon r1 = false ->
  0 <= id2 -> regs !! Z.to_nat id2 = Some r2 -> reg_typed r2 ->
  addr r1 = addr r2 -> offs r1 + leng r1 <= 8 ->
  1 <= leng r2 -> offs r2 + leng r2 <= 8 -> bits_apart r1 r2 ->
  fst (lgw_fpga_reg_r mem_spi regs id2 (Some old)
         (snd (lgw_fpga_reg_w mem_spi regs id1 v (mk_state (Some h) m calls))))
  = fst (lgw_fpga_reg_r mem_spi regs id2 (Some old) (mk_state (Some h) m calls)).
Proof.
  intros Hid1 Hr1 (_ & _ & [Ho1 _] & [Hl1 _] & _) Hrw
         Hid2 Hr2 (_ & _ & [Ho2 _] & _ & _) Haddr Hsum1 Hl2 Hsum2 Hap.
  destruct (mem_write_byte regs h m calls id1 v r1 Hid1 Hr1 Hrw Ho1 Hl1 Hsum1)
    as [Ht Hw].
  rewrite (state_eta (snd (lgw_fpga_reg_w mem_spi regs id1 v _))), Ht, Hw.
  rewrite !(mem_read_byte regs h _ _ id2 old r2) by done.
  f_equal. f_equal. apply truncate_field_mod.
  unfold mem_load1 at 1. rewrite Haddr, lookup_insert_eq. cbn [default].
  rewrite <- Haddr.
  set (ob := uint8_t (mem_load1 FPGA_SPI_MUX_FPGA_REG (addr r1) m)).
  rewrite uint8_small by (apply rmw_byte_is_uint8; solve [apply uint8_is_uint8 | lia]).
  apply rmw_byte_other_field; lia || done.
Qed.

Lemma sibling_field_unchanged_witness :
  fst (lgw_fpga_reg_r mem_spi test_regs 2 (Some 0)
         (snd (lgw_fpga_reg_w mem_spi test_regs 1 5 (connected 1 (mem_with 1 200)))))
  = fst (lgw_fpga_reg_r mem_spi test_regs 2 (Some 0) (connected 1 (mem_with 1 200))).
Proof.
  set (r1 := mk_reg (-1) 1 0 false 3 false 0).
  set (r2 := mk_reg (-1) 1 3 true 5 false 0).
  assert (Ht1 : reg_typed r1) by (unfold reg_typed, is_uint8, is_int32; cbn; lia).
  assert (Ht2 : reg_typed r2) by (unfold reg_typed, is_uint8, is_int32; cbn; lia).
  assert (Hid1 : 0 <= 1) by lia.
  assert (Hid2 : 0 <= 2) by lia.
  assert (Hs1 : offs r1 + leng r1 <= 8) by (cbn; lia).
  assert (Hl2 : 1 <= leng r2) by (cbn; lia).
  assert (Hs2 : offs r2 + leng r2 <= 8) by (cbn; lia).
  assert (Hap : bits_apart r1 r2) by (left; cbn; lia).
  exact (sibling_field_unchanged test_regs 1 (mem_with 1 200) [] 1 2 5 0 r1 r2
           Hid1 eq_refl Ht1 eq_refl Hid2 eq_refl Ht2 eq_refl Hs1 Hl2 Hs2 Hap).
Defined.

(** X11. Writing back what was just read changes nothing: on the memory
    device, when the byte at the register's address holds a byte value,
    a Write of the value that a Read of a field inside a byte returned
    leaves the device memory exactly as it was. *)
Theorem write_back_read_value (regs : list lgw_reg_s) (h : handle)
    (m : gmap (Z * Z) Z) (calls calls' : list spi_call) (id old b : Z)
    (r : lgw_reg_s) :
  0 <= id -> regs !! Z.to_nat id = Some r -> reg_typed r -> rdon r = false ->
  1 <= leng r -> offs r + leng r <= 8 ->
  m !! (FPGA_SPI_MUX_FPGA_REG, addr r) = Some b -> is_uint8 b ->
  exists v : Z,
    fst (lgw_fpga_reg_r mem_spi regs id (Some old) (mk_state (Some h) m calls))
      = (Success, Some v) /\
    spi_world (snd (lgw_fpga_reg_w mem_spi regs id v (mk_state (Some h) m calls'))) = m.
Proof.
  intros Hid Hr (_ & _ & [Ho _] & _ & _) Hrw Hl Hsum Hm Hb.
  eexists. split; [by apply mem_read_byte|].
  destruct (mem_write_byte regs h m calls' id
              (truncate_field (leng r) (sign r)
                 (Z.shiftr (uint8_t (mem_load1 FPGA_SPI_MUX_FPGA_REG (addr r) m)) (offs r)))
              r Hid Hr Hrw Ho ltac:(lia) Hsum) as [_ ->].
  unfold mem_load1. rewrite Hm. cbn [default]. rewrite uint8_small by done.
  rewrite rmw_byte_same_field; [by apply insert_id | lia | lia |].
  apply truncate_field_same_bits. lia.
Qed.

Lemma write_back_read_value_witness :
  exists v : Z,
    fst (lgw_fpga_reg_r mem_spi test_regs 2 (Some 0) (connected 1 (mem_with 1 200)))
      = (Success, Some v) /\
    spi_world (snd (lgw_fpga_reg_w mem_spi test_regs 2 v (connected 1 (mem_with 1 200))))
      = mem_with 1 200.
Proof.
  set (r2 := mk_reg (-1) 1 3 true 5 false 0).
  assert (Ht2 : reg_typed r2) by (unfold reg_typed, is_uint8, is_int32; cbn; lia).
  assert (Hid2 : 0 <= 2) by lia.
  assert (Hl2 : 1 <= leng r2) by (cbn; lia).
  assert (Hs2 : offs r2 + leng r2 <= 8) by (cbn; lia).
  assert (Hb : is_uint8 200) by (unfold is_uint8; lia).
  exact (write_back_read_value test_regs 1 (mem_with 1 200) [] [] 2 0 200 r2
           Hid2 eq_refl Ht2 eq_refl Hl2 Hs2 eq_refl Hb).
Defined.

(** ** Multi-byte Read *)

(** X12. A Read of a multi-byte register (offs = 0, 8 < leng <= 32) asks
    the driver for ceil(leng/8) bytes in one burst and takes them least
    significant byte first.  A signed register yields the two's complement
    value of the low leng bits of that word; an unsigned register yields
    the whole word as an int32, bits above leng included, so an unsigned
    32-bit register whose top bit is set on the device reads as a
    negative number. *)
Theorem multi_byte_read_little_endian {W} (drv : spi_driver W)
    (regs : list lgw_reg_s) (h : handle) (w : W) (calls : list spi_call)
    (id old : Z) (r : lgw_reg_s) :
  0 <= id -> regs !! Z.to_nat id = Some r -> offs r = 0 -> 8 < leng r <= 32 ->
  let size_byte := (leng r + 7) / 8 in
  let '(st, d, w') :=
    lgw_fpga_spi_rb drv (Some h) FPGA_SPI_MUX_FPGA_REG (addr r) [0; 0; 0; 0]
      size_byte w in
  (Z.to_nat size_byte <= length d)%nat ->
  let word := le_value (take (Z.to_nat size_byte) (uint8_t <$> d)) in
  0 <= word < 2 ^ (8 * size_byte) /\
  lgw_fpga_reg_r drv regs id (Some old) (mk_state (Some h) w calls) =
    (check_spi_stat st,
     Some (if sign r then truncate_field (leng r) true word else int32_t word),
     mk_state (Some h) w'
       (calls ++ [SpiRb (Some h) FPGA_SPI_MUX_FPGA_REG (addr r) size_byte])) /\
  (sign r = false -> size_byte <= 3 -> int32_t word = word) /\
  (sign r = false -> leng r = 32 -> 2 ^ 31 <= word -> int32_t word = word - 2 ^ 32).
Proof.
  intros Hid Hr Hoff Hl size_byte.
  destruct (to_nat_size_byte (leng r) Hl) as [Hn Hceil]. fold size_byte in Hn, Hceil.
  destruct (lgw_fpga_spi_rb drv _ _ _ _ _ _) as [[st d] w'] eqn:Hrb.
  intros Hlen word.
  assert (Hbytes : Forall is_uint8 (uint8_t <$> d)).
  { apply Forall_fmap, Forall_forall. intros x _. apply uint8_is_uint8. }
  destruct (reg_r_assemble_le_value (Z.to_nat size_byte) (uint8_t <$> d))
    as [Hasm Hword]; [lia | by rewrite length_fmap | done |].
  fold word in Hasm, Hword. rewrite Z2Nat.id in Hword by lia.
  split; [exact Hword|]. split; [|split].
  - layer_unfold. in_table Hid Hr. cbn -[reg_r_word Z.div].
    rewrite Hoff. change (0 + leng r) with (leng r).
    assert (Hsum : (leng r <=? 8) = false) by (apply Z.leb_gt; lia).
    assert (Hpos : (0 <? leng r) = true) by (apply Z.ltb_lt; lia).
    assert (Hle : (leng r <=? 32) = true) by (apply Z.leb_le; lia).
    rewrite Hsum, Hpos, Hle. cbn -[reg_r_word Z.div]. fold size_byte.
    rewrite Hrb. cbn -[reg_r_word Z.div]. f_equal. f_equal. f_equal.
    unfold reg_r_word. rewrite Hasm.
    destruct (sign r); [|done]. apply sign_extend_word. lia.
  - intros _ H3. apply int32_small. unfold is_int32.
    assert (2 ^ (8 * size_byte) <= 2 ^ 24) by (apply Z.pow_le_mono_r; lia). lia.
  - intros _ H32 Htop.
    assert (Hsz : size_byte = 4) by (unfold size_byte; by rewrite H32).
    rewrite Hsz in Hword. unfold int32_t.
    Z.div_mod_to_equations. lia.
Qed.

Lemma multi_byte_read_little_endian_witness :
  lgw_fpga_reg_r mem_spi fpga_regs 8 (Some 0)
    (connected 1 (mem_store 1 10 [0; 0; 0; 128] ∅))
  = (Success, Some (- 2 ^ 31),
     mk_state (Some 1) (mem_store 1 10 [0; 0; 0; 128] ∅) [SpiRb (Some 1) 1 10 4]).
Proof.
  set (r := mk_reg (-1) 10 0 false 32 true 0).
  assert (Hid : 0 <= 8) by lia.
  assert (Hl : 8 < leng r <= 32) by (cbn; lia).
  pose proof (multi_byte_read_little_endian mem_spi fpga_regs 1
                (mem_store 1 10 [0; 0; 0; 128] ∅) [] 8 0 r
                Hid eq_refl eq_refl Hl) as H.
  vm_compute in H. destruct (H (le_n 4)) as (_ & Hrun & _).
  vm_compute. exact Hrun.
Defined.

(** ** Registers of a table without shared bytes *)

Lemma reg_r_own_bytes (regs : list lgw_reg_s) (id : Z) (cell : option Z)
    (s1 s2 : lgw_state (gmap (Z * Z) Z)) :
  spi_target s1 = spi_target s2 ->
  (forall a : Z,
     addr (regs !!! Z.to_nat id) <= a
       < addr (regs !!! Z.to_nat id) + reg_bytes (regs !!! Z.to_nat id) ->
     spi_world s1 !! (FPGA_SPI_MUX_FPGA_REG, a)
     = spi_world s2 !! (FPGA_SPI_MUX_FPGA_REG, a)) ->
  fst (lgw_fpga_reg_r mem_spi regs id cell s1)
  = fst (lgw_fpga_reg_r mem_spi regs id cell s2).
Proof.
  intros Ht Hw. set (r := regs !!! Z.to_nat id) in *.
  layer_unfold. fold r. unfold reg_bytes in Hw.
  destruct cell as [old|]; [|done].
  destruct (LGW_FPGA_TOTALREGS regs <=? id); [done|].
  cbn -[reg_r_byte reg_r_word Z.div]. rewrite Ht.
  destruct (spi_target s2) as [h|]; [|done].
  destruct (Z.leb_spec (offs r + leng r) 8) as [Hs | Hs];
    cbn -[reg_r_byte reg_r_word Z.div].
  - unfold mem_load1. by rewrite Hw by lia.
  - destruct ((offs r =? 0) && (0 <? leng r) && (leng r <=? 32)) eqn:Hgeo;
      cbn -[reg_r_byte reg_r_word Z.div]; [|done].
    apply andb_true_iff in Hgeo as [Hgeo _].
    apply andb_true_iff in Hgeo as [_ Hpos]. apply Z.ltb_lt in Hpos.
    rewrite (mem_load_ext _ _ _ (spi_world s1) (spi_world s2)); [done|].
    intros a' Ha'. apply Hw.
    assert (0 <= (leng r + 7) / 8) by (apply Z.div_pos; lia). lia.
Qed.

Lemma bytes_apart_sym (r1 r2 : lgw_reg_s) : bytes_apart r1 r2 = bytes_apart r2 r1.
Proof. unfold bytes_apart. apply orb_comm. Qed.

Lemma table_apart_lookup (regs : list lgw_reg_s) (i j : nat) (r1 r2 : lgw_reg_s) :
  table_apart regs = true -> i <> j ->
  regs !! i = Some r1 -> regs !! j = Some r2 -> bytes_apart r1 r2 = true.
Proof.
  revert i j. induction regs as [|r regs IH]; intros i j Hap Hij Hi Hj; [done|].
  cbn in Hap. apply andb_true_iff in Hap as [Hhead Htail].
  rewrite forallb_forall in Hhead.
  destruct i as [|i], j as [|j]; cbn in Hi, Hj; simplify_eq.
  - apply Hhead, list_elem_of_In, list_elem_of_lookup. eauto.
  - rewrite bytes_apart_sym. apply Hhead, list_elem_of_In, list_elem_of_lookup. eauto.
  - apply (IH i j); auto.
Qed.

(** The table of the source shares no device byte between two entries. *)
Lemma fpga_regs_apart : table_apart fpga_regs = true.
Proof. vm_compute. reflexivity. Qed.

(** X13. In a table whose entries share no device byte, as is the table
    of the source, the registers are independent on the memory device: a
    Write to one register, whatever its value and its exit, leaves what a
    Read of any other register returns unchanged. *)
Theorem table_registers_independent (regs : list lgw_reg_s)
    (s : lgw_state (gmap (Z * Z) Z)) (id1 id2 v : Z) (cell : option Z)
    (r1 r2 : lgw_reg_s) :
  table_apart regs = true -> 0 <= id1 -> 0 <= id2 -> id1 <> id2 ->
  regs !! Z.to_nat id1 = Some r1 -> regs !! Z.to_nat id2 = Some r2 ->
  fst (lgw_fpga_reg_r mem_spi regs id2 cell (snd (lgw_fpga_reg_w mem_spi regs id1 v s)))
  = fst (lgw_fpga_reg_r mem_spi regs id2 cell s).
Proof.
  intros Hap Hid1 Hid2 Hne Hr1 Hr2.
  assert (Hpair : bytes_apart r1 r2 = true).
  { apply (table_apart_lookup regs (Z.to_nat id1) (Z.to_nat id2)); [done | lia | done | done]. }
  apply list_lookup_total_correct in Hr1 as Hget1.
  apply list_lookup_total_correct in Hr2 as Hget2.
  apply reg_r_own_bytes.
  - apply reg_w_target.
  - rewrite Hget2. intros a Ha. apply reg_w_frame. rewrite Hget1.
    unfold bytes_apart in Hpair. apply orb_true_iff in Hpair as [H | H];
      apply Z.leb_le in H; lia.
Qed.

Lemma table_registers_independent_witness :
  fst (lgw_fpga_reg_r mem_spi fpga_regs 7 (Some 0)
         (snd (lgw_fpga_reg_w mem_spi fpga_regs 6 (-1) (connected 1 (mem_with 8 77)))))
  = fst (lgw_fpga_reg_r mem_spi fpga_regs 7 (Some 0) (connected 1 (mem_with 8 77))).
Proof.
  assert (H6 : 0 <= 6) by lia.
  assert (H7 : 0 <= 7) by lia.
  assert (Hne : 6 <> 7) by lia.
  exact (table_registers_independent fpga_regs (connected 1 (mem_with 8 77)) 6 7 (-1)
           (Some 0) _ _ fpga_regs_apart H6 H7 Hne eq_refl eq_refl).
Defined.

(** ** Burst pass-through *)



Lemma fmap_uint8_bytes (l : list Z) : Forall is_uint8 l -> uint8_t <$> l = l.
Proof.
  intros Hl. induction Hl as [|x l Hx _ IH]; cbn; [done|].
  by rewrite IH, uint8_small.
Qed.

(** The state after a burst write of [size] bytes on the memory device. *)
Lemma mem_burst_write (regs : list lgw_reg_s) (h : handle) (m : gmap (Z * Z) Z)
    (calls : list spi_call) (id size : Z) (data : list Z) (r : lgw_reg_s) :
  0 <= id -> regs !! Z.to_nat id = Some r -> rdon r = false -> 0 < size ->
  lgw_fpga_reg_wb mem_spi regs id (Some data) size (mk_state (Some h) m calls) =
    (Success,
     mk_state (Some h)
       (mem_store FPGA_SPI_MUX_FPGA_REG (addr r) (take (Z.to_nat size) data) m)
       (calls ++ [SpiWb (Some h) FPGA_SPI_MUX_FPGA_REG (addr r) data size])).
Proof.
  intros Hid Hr Hrw Hsz. layer_unfold. in_table Hid Hr.
  assert (Hz : (size =? 0) = false) by (apply Z.eqb_neq; lia).
  rewrite Hz. cbn. by rewrite Hrw.
Qed.

(** X15. On the memory device a burst write of [size] bytes to a
    writable register followed by a burst read of [size] bytes from it
    succeeds and returns the bytes written in the first [size] places of
    the caller's buffer, the rest of the buffer being left as it was. *)
Theorem burst_write_read_round_trip (regs : list lgw_reg_s) (h : handle)
    (m : gmap (Z * Z) Z) (calls : list spi_call) (id size : Z)
    (data buf : list Z) (r : lgw_reg_s) :
  0 <= id -> regs !! Z.to_nat id = Some r -> rdon r = false ->
  0 < size -> (Z.to_nat size <= length data)%nat ->
  Forall is_uint8 data -> Forall is_uint8 buf ->
  fst (lgw_fpga_reg_rb mem_spi regs id (Some buf) size
         (snd (lgw_fpga_reg_wb mem_spi regs id (Some data) size
                 (mk_state (Some h) m calls))))
  = (Success, Some (take (Z.to_nat size) data ++ drop (Z.to_nat size) buf)).
Proof.
  intros Hid Hr Hrw Hsz Hlen Hdata Hbuf.
  rewrite (mem_burst_write regs h m calls id size data r) by done. cbn [snd].
  layer_unfold. in_table Hid Hr.
  assert (Hz : (size =? 0) = false) by (apply Z.eqb_neq; lia).
  rewrite Hz. cbn.
  assert (Hn : length (take (Z.to_nat size) data) = Z.to_nat size).
  { rewrite length_take. lia. }
  rewrite <- Hn at 1. rewrite mem_load_store.
  rewrite fmap_uint8_bytes; [done|].
  apply Forall_app. split; [by apply Forall_take | by apply Forall_drop].
Qed.

Lemma burst_write_read_round_trip_witness :
  fst (lgw_fpga_reg_rb mem_spi fpga_regs 4 (Some [9; 9; 9; 9]) 3
         (snd (lgw_fpga_reg_wb mem_spi fpga_regs 4 (Some [1; 2; 3]) 3 (connected 1 ∅))))
  = (Success, Some [1; 2; 3; 9]).
Proof.
  assert (Hid : 0 <= 4) by lia.
  assert (Hsz : 0 < 3) by lia.
  assert (Hlen : (Z.to_nat 3 <= length [1; 2; 3])%nat) by (cbn; lia).
  assert (Hd : Forall is_uint8 [1; 2; 3]) by (unfold is_uint8; repeat constructor; lia).
  assert (Hb : Forall is_uint8 [9; 9; 9; 9]) by (unfold is_uint8; repeat constructor; lia).
  exact (burst_write_read_round_trip fpga_regs 1 ∅ [] 4 3 [1; 2; 3] [9; 9; 9; 9]
           (mk_reg (-1) 4 0 false 8 false 0) Hid eq_refl eq_refl Hsz Hlen Hd Hb).
Defined.

(** X16. The burst and the scalar routines agree on the layout of a
    multi-byte register on the memory device.  A burst write of
    ceil(leng/8) bytes followed by a Read yields the word those bytes spell,
    least significant byte first (its low leng bits sign-extended for a
    signed register, the word as an int32 otherwise); a Write of a value
    followed by a burst read of ceil(leng/8) bytes yields the bytes of the
    value, byte i being (v / 2^(8i)) mod 256. *)
Theorem burst_and_scalar_agree (regs : list lgw_reg_s) (h : handle)
    (m : gmap (Z * Z) Z) (calls : list spi_call) (id v old : Z)
    (data buf : list Z) (r : lgw_reg_s) :
  0 <= id -> regs !! Z.to_nat id = Some r -> rdon r = false ->
  offs r = 0 -> 8 < leng r <= 32 ->
  let size_byte := (leng r + 7) / 8 in
  (Z.to_nat size_byte <= length data)%nat -> Forall is_uint8 data ->
  (Z.to_nat size_byte <= length buf)%nat -> Forall is_uint8 buf ->
  (let word := le_value (take (Z.to_nat size_byte) data) in
   fst (lgw_fpga_reg_r mem_spi regs id (Some old)
          (snd (lgw_fpga_reg_wb mem_spi regs id (Some data) size_byte
                  (mk_state (Some h) m calls))))
   = (Success,
      Some (if sign r then truncate_field (leng r) true word else int32_t word))) /\
  (exists bytes : list Z,
     fst (lgw_fpga_reg_rb mem_spi regs id (Some buf) size_byte
            (snd (lgw_fpga_reg_w mem_spi regs id v (mk_state (Some h) m calls))))
     = (Success, Some (bytes ++ drop (Z.to_nat size_byte) buf)) /\
     length bytes = Z.to_nat size_byte /\
     forall i : Z, 0 <= i < size_byte ->
       bytes !! Z.to_nat i = Some ((v / 2 ^ (8 * i)) mod 2 ^ 8)).
Proof.
  intros Hid Hr Hrw Hoff Hl size_byte Hlen Hdata Hlenb Hbuf.
  destruct (to_nat_size_byte (leng r) Hl) as [Hn Hceil]. fold size_byte in Hn, Hceil.
  assert (Hsum : (leng r <=? 8) = false) by (apply Z.leb_gt; lia).
  assert (Hpos : (0 <? leng r) = true) by (apply Z.ltb_lt; lia).
  assert (Hle : (leng r <=? 32) = true) by (apply Z.leb_le; lia).
  assert (H8 : (leng r =? 8) = false) by (apply Z.eqb_neq; lia).
  assert (Hz : (size_byte =? 0) = false) by (apply Z.eqb_neq; lia).
  split.
  - rewrite (mem_burst_write regs h m calls id size_byte data r) by (done || lia).
    cbn [snd]. layer_unfold. in_table Hid Hr. cbn -[reg_r_word Z.div].
    rewrite Hoff. change (0 + leng r) with (leng r).
    rewrite Hsum, Hpos, Hle. cbn -[reg_r_word Z.div]. fold size_byte.
    assert (Hk : length (take (Z.to_nat size_byte) data) = Z.to_nat size_byte).
    { rewrite length_take. lia. }
    rewrite <- Hk at 1. rewrite mem_load_store.
    f_equal. f_equal. unfold reg_r_word.
    set (bufu := uint8_t <$> _).
    assert (Hbufu : bufu = take (Z.to_nat size_byte) data
                           ++ drop (Z.to_nat size_byte) [0; 0; 0; 0]).
    { unfold bufu. apply fmap_uint8_bytes, Forall_app. split.
      - by apply Forall_take.
      - apply Forall_drop. unfold is_uint8. repeat constructor; lia. }
    destruct (reg_r_assemble_le_value (Z.to_nat size_byte) bufu) as [Hasm _].
    + lia.
    + rewrite Hbufu, length_app, Hk. lia.
    + rewrite Hbufu. apply Forall_app. split.
      * by apply Forall_take.
      * apply Forall_drop. unfold is_uint8. repeat constructor; lia.
    + rewrite Hasm, Hbufu, take_app_length' by done.
      destruct (sign r); [|done]. apply sign_extend_word. lia.
  - exists (take (Z.to_nat size_byte)
              (reg_w_split (Z.to_nat size_byte) 0 v [0; 0; 0; 0])).
    assert (Hk : length (take (Z.to_nat size_byte)
                           (reg_w_split (Z.to_nat size_byte) 0 v [0; 0; 0; 0]))
                 = Z.to_nat size_byte).
    { rewrite length_take, reg_w_split_length. cbn. lia. }
    split; [|split; [exact Hk|]].
    + layer_unfold. in_table Hid Hr. cbn -[reg_w_split Z.div].
      rewrite Hrw, Hoff. change (0 + leng r) with (leng r).
      rewrite H8, Hsum, Hpos, Hle. cbn -[reg_w_split Z.div]. fold size_byte.
      rewrite Hz. cbn -[reg_w_split Z.div].
      rewrite <- Hk at 1. rewrite mem_load_store.
      f_equal. f_equal. apply fmap_uint8_bytes, Forall_app. split.
      * apply Forall_take. rewrite <- reg_w_split_bytes by done.
        apply Forall_fmap, Forall_forall. intros x _. apply uint8_is_uint8.
      * by apply Forall_drop.
    + intros i Hi. rewrite lookup_take_lt by lia.
      apply reg_w_split_byte; [done | lia].
Qed.

Lemma burst_and_scalar_agree_witness :
  fst (lgw_fpga_reg_r mem_spi fpga_regs 6 (Some 0)
         (snd (lgw_fpga_reg_wb mem_spi fpga_regs 6 (Some [0; 125]) 2 (connected 1 ∅))))
  = (Success, Some 32000).
Proof.
  set (r := mk_reg (-1) 6 0 false 16 false 32000).
  assert (Hid : 0 <= 6) by lia.
  assert (Hl : 8 < leng r <= 32) by (cbn; lia).
  assert (Hlen : (Z.to_nat ((leng r + 7) / 8) <= length [0; 125])%nat)
    by (vm_compute; lia).
  assert (Hd : Forall is_uint8 [0; 125]) by (unfold is_uint8; repeat constructor; lia).
  destruct (burst_and_scalar_agree fpga_regs 1 ∅ [] 6 0 0 [0; 125] [0; 125] r
              Hid eq_refl eq_refl eq_refl Hl Hlen Hd Hlen Hd) as [H _].
  exact H.
Defined.

(** ** Values wider than the field *)

Lemma rmw_byte_value_mod (r : lgw_reg_s) (old v v' : Z) :
  0 <= offs r -> 0 <= leng r ->
  v mod 2 ^ leng r = v' mod 2 ^ leng r -> rmw_byte r old v = rmw_byte r old v'.
Proof.
  intros Ho Hl Hv. unfold rmw_byte. f_equal. rewrite field_mask_ones.
  rewrite <- !Z.land_ones in Hv by lia.
  apply Z.bits_inj'. intros i Hi.
  rewrite !Z.land_spec, !Z.shiftl_spec, Z.testbit_ones by lia.
  destruct (Z.leb_spec 0 (i - offs r)); cbn; [|by rewrite !andb_false_r].
  destruct (Z.ltb_spec (i - offs r) (leng r)); [|by rewrite !andb_false_r].
  apply (f_equal (fun z => Z.testbit z (i - offs r))) in Hv.
  rewrite !Z.land_spec, Z.testbit_ones_nonneg in Hv by lia.
  destruct (Z.ltb_spec (i - offs r) (leng r)); [|lia].
  rewrite !andb_true_r in Hv. by rewrite Hv.
Qed.

Lemma reg_w_split_value_mod (n : nat) (v v' : Z) :
  (2 <= n <= 4)%nat -> v mod 2 ^ (8 * Z.of_nat n) = v' mod 2 ^ (8 * Z.of_nat n) ->
  reg_w_split n 0 v [0; 0; 0; 0] = reg_w_split n 0 v' [0; 0; 0; 0].
Proof.
  intros Hn.
  assert (Hc : n = 2%nat \/ n = 3%nat \/ n = 4%nat) by lia.
  destruct Hc as [-> | [-> | ->]]; intros Hv;
    [ change (2 ^ (8 * Z.of_nat 2)) with (2 ^ 16) in Hv
    | change (2 ^ (8 * Z.of_nat 3)) with (2 ^ 24) in Hv
    | change (2 ^ (8 * Z.of_nat 4)) with (2 ^ 32) in Hv ];
    cbn -[Z.pow Z.shiftr Z.land]; unfold uint8_t;
    rewrite !land_255, !Z.shiftr_div_pow2 by lia;
    repeat (apply (f_equal2 cons); [Z.div_mod_to_equations; lia|]); done.
Qed.

(** X17. A Write never rejects a value for being too wide: it sends the low
    bits only.  Two values that agree on the low write_width bits (the
    field's length inside a byte, ceil(leng/8) whole bytes for a multi-byte
    register) make the Write behave identically, with the same exit, the
    same driver calls and the same final state, over every driver. *)
Theorem write_truncates_value {W} (drv : spi_driver W) (regs : list lgw_reg_s)
    (s : lgw_state W) (id v v' : Z) (r : lgw_reg_s) :
  0 <= id -> regs !! Z.to_nat id = Some r -> reg_typed r ->
  v mod 2 ^ write_width r = v' mod 2 ^ write_width r ->
  lgw_fpga_reg_w drv regs id v s = lgw_fpga_reg_w drv regs id v' s.
Proof.
  intros Hid Hr (_ & _ & [Ho _] & [Hl _] & _) Hv. unfold write_width in Hv.
  layer_unfold. in_table Hid Hr. cbn -[reg_w_mix reg_w_split Z.div Z.pow].
  destruct (spi_target s) as [h|]; [|done].
  destruct (rdon r); [done|].
  destruct (Z.leb_spec (offs r + leng r) 8) as [Hs | Hs].
  - destruct ((leng r =? 8) && (offs r =? 0)) eqn:Hdirect.
    + apply andb_true_iff in Hdirect as [H8 _]. apply Z.eqb_eq in H8.
      rewrite H8 in Hv. unfold uint8_t. by rewrite Hv.
    + cbn -[reg_w_mix Z.pow].
      destruct (lgw_fpga_spi_r drv _ _ _ _ _) as [[st b] w1].
      cbn -[reg_w_mix Z.pow].
      rewrite !reg_w_mix_rmw by solve [apply uint8_is_uint8 | lia].
      by rewrite (rmw_byte_value_mod r _ v v') by done.
  - destruct ((leng r =? 8) && (offs r =? 0)) eqn:Hdirect.
    { apply andb_true_iff in Hdirect as [H8 H0]. apply Z.eqb_eq in H8, H0. lia. }
    destruct ((offs r =? 0) && (0 <? leng r) && (leng r <=? 32)) eqn:Hgeo; [|done].
    apply andb_true_iff in Hgeo as [Hgeo H32].
    apply andb_true_iff in Hgeo as [H0 _].
    apply Z.eqb_eq in H0. apply Z.leb_le in H32.
    destruct (to_nat_size_byte (leng r)) as [Hn _]; [lia|].
    rewrite (reg_w_split_value_mod _ v v'); [done | done |].
    rewrite Z2Nat.id by lia. done.
Qed.

Lemma write_truncates_value_witness :
  lgw_fpga_reg_w mem_spi test_regs 1 13 (connected 1 ∅)
  = lgw_fpga_reg_w mem_spi test_regs 1 5 (connected 1 ∅).
Proof.
  set (r := mk_reg (-1) 1 0 false 3 false 0).
  assert (Ht : reg_typed r) by (unfold reg_typed, is_uint8, is_int32; cbn; lia).
  assert (Hid : 0 <= 1) by lia.
  exact (write_truncates_value mem_spi test_regs (connected 1 ∅) 1 13 5 r
           Hid eq_refl Ht eq_refl).
Defined.

(** ** The SX1272 pass-through on the memory device *)

(** X18. The pass-through addresses the SX1272 mux, a space of its own.  On
    the memory device, in the connected state, a pass-through write of a
    byte followed by a pass-through read of the same address returns that
    byte; the write changes what no register Read returns, and no register
    Write that follows changes what the pass-through read returns. *)
Theorem sx1272_space_is_separate (regs : list lgw_reg_s) (h : handle)
    (m : gmap (Z * Z) Z) (calls : list spi_call) (id id' a v v' : Z)
    (cell : option Z) :
  is_uint8 v ->
  let s := mk_state (Some h) m calls in
  let s1 := snd (lgw_sx1272_reg_w mem_spi a v s) in
  fst (lgw_sx1272_reg_w mem_spi a v s) = LGW_SPI_SUCCESS /\
  fst (lgw_sx1272_reg_r mem_spi a 0 s1) = (LGW_SPI_SUCCESS, v) /\
  fst (lgw_fpga_reg_r mem_spi regs id cell s1)
    = fst (lgw_fpga_reg_r mem_spi regs id cell s) /\
  fst (lgw_sx1272_reg_r mem_spi a 0 (snd (lgw_fpga_reg_w mem_spi regs id' v' s1)))
    = (LGW_SPI_SUCCESS, v).
Proof.
  intros Hv s s1. subst s s1.
  split; [done|]. split; [|split].
  - layer_unfold. cbn. unfold mem_load1. rewrite lookup_insert_eq. cbn.
    by rewrite uint8_small.
  - apply reg_r_own_bytes; [done|].
    intros a' _. layer_unfold. cbn. by rewrite lookup_insert_ne.
  - set (s1 := snd (lgw_sx1272_reg_w mem_spi a v _)).
    pose proof (reg_w_target mem_spi regs id' v' s1) as Ht.
    assert (Hmux : FPGA_SPI_MUX_SX1272 <> FPGA_SPI_MUX_FPGA_REG) by done.
    pose proof (reg_w_frame regs s1 id' v' FPGA_SPI_MUX_SX1272 a
                  (or_introl Hmux)) as Hw.
    destruct (snd (lgw_fpga_reg_w mem_spi regs id' v' s1)) as [t w c].
    cbn in Ht, Hw. subst t.
    layer_unfold. cbn. unfold mem_load1. rewrite Hw, lookup_insert_eq. cbn.
    by rewrite uint8_small.
Qed.

Lemma sx1272_space_is_separate_witness :
  fst (lgw_sx1272_reg_r mem_spi 66 0
         (snd (lgw_fpga_reg_w mem_spi fpga_regs 3 255
                 (snd (lgw_sx1272_reg_w mem_spi 66 34 (connected 1 ∅))))))
  = (LGW_SPI_SUCCESS, 34).
Proof.
  assert (Hv : is_uint8 34) by (unfold is_uint8; lia).
  destruct (sx1272_space_is_separate fpga_regs 1 ∅ [] 0 3 66 34 255 None Hv)
    as (_ & _ & _ & H).
  exact H.
Defined.
